(** * Controle de estoque: the valuation and replenishment rules of
      [backend/main.py], embedded in Rocq.

    The Python functions are translated one by one.  The database
    connection becomes an explicit state ([conn]) holding the two tables
    of the DDL, exceptions become the [Raise] outcome of a small
    state-and-exception monad, and Python's [float] becomes a type [F]
    carrying the operations the program uses ([PyFloat]), together with
    the NUMERIC arithmetic in which PostgreSQL evaluates the aggregates of
    the queries.  The instance is IEEE binary64, what CPython runs. *)

From Stdlib Require Import ZArith List String Ascii Bool Lia Permutation Sorted.
From Stdlib Require Import QArith Qround.
From Stdlib Require Import PrimFloat SpecFloat FloatOps FloatAxioms.
Import ListNotations.

Local Open Scope string_scope.
Local Open Scope Z_scope.

(** ** Python values the program computes with *)

(** The operations of Python's [float] used by [main.py].  [fdiv] is the
    quotient of a division whose divisor is not zero; the check Python
    makes before dividing is [truediv] below.  [of_Q] reads a decimal
    literal or converts an [int]: the nearest value of [F].  [fround2] is
    the builtin [round(x, 2)].

    [numeric] is the type in which PostgreSQL computes [SUM] and [AVG]
    over the NUMERIC columns: [to_numeric x] is the value a NUMERIC(14,4)
    column holds after the float [x] was written to it, [of_numeric d] is
    [float(d)] on the [Decimal] a query returns, [n0] is the literal [0],
    [nadd] and [nmul] are the sum and the product of NUMERIC values, and
    [ndiv s n] is the quotient [AVG] takes of a sum by a count. *)
Class PyFloat (F : Type) := {
  f0 : F;
  of_Q : Q -> F;
  fadd : F -> F -> F;
  fsub : F -> F -> F;
  fmul : F -> F -> F;
  fdiv : F -> F -> F;
  flt : F -> F -> bool;
  fle : F -> F -> bool;
  fis0 : F -> bool;
  fround2 : F -> F;
  numeric : Type;
  to_numeric : F -> numeric;
  of_numeric : numeric -> F;
  n0 : numeric;
  nadd : numeric -> numeric -> numeric;
  nmul : numeric -> numeric -> numeric;
  ndiv : numeric -> Z -> numeric
}.

(** The facts about numbers that the generic proofs use, and nothing
    else: no algebraic law of [+], [*] or [/] is assumed. *)
Class PyFloatLaws (F : Type) `{PyFloat F} := {
  flt_0_nonzero : forall x, flt f0 x = true -> fis0 x = false;
  fis0_not_pos : forall x, fis0 x = true -> flt f0 x = false;
  flt_asym : forall x y, flt x y = true -> flt y x = false;
  fadd_0_0 : fadd f0 f0 = f0;
  fround2_0 : fround2 f0 = f0;
  fle_0_80 : fle f0 (of_Q (inject_Z 80)) = true
}.

(** [float(Decimal(0))] is [0.0]: used only for the turnover of an empty
    window. *)
Class NumericLaws (F : Type) `{PyFloat F} := {
  of_numeric_0 : of_numeric n0 = f0
}.

(** One fact about [+], used only for the stock of sequences of
    movements: a sum of two values that are not below zero is not below
    zero. *)
Class PyFloatAdd (F : Type) `{PyFloat F} := {
  fadd_nao_negativo :
    forall x y, flt x f0 = false -> flt y f0 = false -> flt (fadd x y) f0 = false
}.

(** [str.upper], a builtin of Python taken as a parameter. *)
Class PyStr := { upper : string -> string }.

(** The exceptions that can leave the modelled functions. *)
Inductive exn : Type :=
| HTTPException (status_code : Z) (detail : string)
| ZeroDivisionError
| TypeError
| IntegrityError
| OverflowError.

Inductive result (A : Type) : Type :=
| Ok (a : A)
| Raise (e : exn).
Arguments Ok {A} a.
Arguments Raise {A} e.

Definition rbind {A B : Type} (r : result A) (k : A -> result B) : result B :=
  match r with
  | Ok a => k a
  | Raise e => Raise e
  end.

Notation "x <-? r ;; k" := (rbind r (fun x => k))
  (at level 61, r at next level, right associativity).

(** The three accepted kinds: the set literal of [lancar_movimento] and
    [importar_excel]. *)
Definition tipos_validos : list string := ["ENTRADA"; "SAIDA"; "AJUSTE"].

Definition py_in (s : string) (l : list string) : bool :=
  existsb (String.eqb s) l.

(** [int(x) or d] on an [int]: zero is falsy. *)
Definition int_or (x d : Z) : Z := if x =? 0 then d else x.

Section Model.
Context {F : Type} `{PyFloat F} `{PyStr}.

Definition of_int (z : Z) : F := of_Q (inject_Z z).

(** [x / y] on floats: raises when the divisor is zero. *)
Definition truediv (x y : F) : result F :=
  if fis0 y then Raise ZeroDivisionError else Ok (fdiv x y).

(** [x / n] with [n] an [int]: the divisor is converted, and the
    division raises exactly when [n] is [0]. *)
Definition truediv_int (x : F) (n : Z) : result F :=
  if n =? 0 then Raise ZeroDivisionError else Ok (fdiv x (of_int n)).

(** [max(a, b)]: the builtin keeps [a] unless [b > a]. *)
Definition py_max (a b : F) : F := if flt a b then b else a.

(** [x or d] on a float: [0.0] and [-0.0] are falsy. *)
Definition float_or (x d : F) : F := if fis0 x then d else x.

(** [float(v) if v is not None else 0.0]. *)
Definition float_or_zero (v : option F) : F :=
  match v with
  | Some x => x
  | None => f0
  end.

(** [float(v)]: a [TypeError] on [None]. *)
Definition to_float (v : option F) : result F :=
  match v with
  | Some x => Ok x
  | None => Raise TypeError
  end.

Definition to_int (v : option Z) : result Z :=
  match v with
  | Some x => Ok x
  | None => Raise TypeError
  end.

(** ** The two tables

    A numeric column is kept as the float the program wrote to it, and
    the program reads that float back; a nullable column is an [option].
    The SQL aggregates read a column through [to_numeric], that is with
    the four decimals the column keeps.  Instants are microseconds
    counted from 1970-01-01T00:00:00.  The widths of the VARCHAR columns
    and the range of the NUMERIC and INT columns are not represented: a
    statement that PostgreSQL refuses for them succeeds here. *)
Record produto : Type := mkProduto {
  prod_id : Z;
  codigo : option string;
  ean : option string;
  descricao : string;
  ncm : option string;
  unidade : option string;
  preco_medio : option F;
  estoque_atual : option F;
  consumo_medio_dia : option F;
  lead_time_dias : option Z;
  fator_seguranca : option F;
  criado_em : Z;
  atualizado_em : Z
}.

Record movimento : Type := mkMovimento {
  mov_id : Z;
  produto_id : Z;
  tipo : string;
  quantidade : F;
  preco_unit : option F;
  origem : option string;
  documento : option string;
  data_mov : Z
}.

(** A connection: the tables, the two SERIAL sequences and the clock
    ([NOW()] and [datetime.now()], one instant per request). *)
Record conn : Type := mkConn {
  produtos : list produto;
  movimentos : list movimento;
  produtos_id_seq : Z;
  movimentos_id_seq : Z;
  agora : Z
}.

(** ** State and exceptions *)
Definition M (A : Type) : Type := conn -> result A * conn.

Definition ret {A : Type} (a : A) : M A := fun c => (Ok a, c).

Definition raise {A : Type} (e : exn) : M A := fun c => (Raise e, c).

Definition bind {A B : Type} (m : M A) (k : A -> M B) : M B :=
  fun c =>
    match m c with
    | (Ok a, c') => k a c'
    | (Raise e, c') => (Raise e, c')
    end.

Definition lift {A : Type} (r : result A) : M A := fun c => (r, c).

Definition get : M conn := fun c => (Ok c, c).

Definition modify (f : conn -> conn) : M unit := fun c => (Ok tt, f c).

(** [with engine.begin() as conn]: commit on normal exit, roll the
    tables back when an exception leaves the block (sequences are not
    transactional). *)
Definition begin {A : Type} (body : M A) : M A :=
  fun c =>
    match body c with
    | (Ok a, c') => (Ok a, c')
    | (Raise e, c') =>
        (Raise e, mkConn (produtos c) (movimentos c)
                         (produtos_id_seq c') (movimentos_id_seq c') (agora c'))
    end.
End Model.

Notation "x <- m ;; k" := (bind m (fun x => k))
  (at level 61, m at next level, right associativity).
Notation "m ;;; k" := (bind m (fun _ => k))
  (at level 61, right associativity).

(** ** The SQL statements and the business rules *)
Section Rules.
Context {F : Type} `{PyFloat F} `{PyStr}.

Local Abbreviation produto := (@produto F).
Local Abbreviation movimento := (@movimento F).
Local Abbreviation conn := (@conn F).
Local Abbreviation M := (@M F).

(** [SELECT ... FROM produtos WHERE id=:id] followed by [.first()]. *)
Definition produto_por_id (c : conn) (id : Z) : option produto :=
  find (fun p => prod_id p =? id) (produtos c).

(** [SELECT id FROM produtos WHERE codigo=:c]; comparing with NULL
    selects nothing. *)
Definition produto_por_codigo (c : conn) (cod : option string) : option produto :=
  match cod with
  | Some s =>
      find (fun p => match codigo p with
                     | Some s' => String.eqb s' s
                     | None => false
                     end) (produtos c)
  | None => None
  end.

Definition set_estoque_preco (p : produto) (e pm : F) (t : Z) : produto :=
  mkProduto (prod_id p) (codigo p) (ean p) (descricao p) (ncm p) (unidade p)
            (Some pm) (Some e) (consumo_medio_dia p) (lead_time_dias p)
            (fator_seguranca p) (criado_em p) t.

Definition set_consumo (p : produto) (cm : F) : produto :=
  mkProduto (prod_id p) (codigo p) (ean p) (descricao p) (ncm p) (unidade p)
            (preco_medio p) (estoque_atual p) (Some cm) (lead_time_dias p)
            (fator_seguranca p) (criado_em p) (atualizado_em p).

Definition set_cadastro (p : produto) (e : option string) (d : string)
           (n u : option string) (t : Z) : produto :=
  mkProduto (prod_id p) (codigo p) e d n u
            (preco_medio p) (estoque_atual p) (consumo_medio_dia p)
            (lead_time_dias p) (fator_seguranca p) (criado_em p) t.

(** [UPDATE produtos SET ... WHERE id=:id]. *)
Definition update_produtos (id : Z) (f : produto -> produto) (c : conn) : conn :=
  mkConn (map (fun p => if prod_id p =? id then f p else p) (produtos c))
         (movimentos c) (produtos_id_seq c) (movimentos_id_seq c) (agora c).

(** [INSERT INTO produtos(...) RETURNING ...]: the id comes from the
    sequence, the columns left out take the defaults of the DDL, and a
    code already present violates UNIQUE.  The new row is returned. *)
Definition insert_produto (cod e : option string) (d : string)
           (n u : option string) (lead : option Z) (fs : option F) : M produto :=
  fun c =>
    let id := produtos_id_seq c in
    match produto_por_codigo c cod with
    | Some _ =>
        (Raise IntegrityError,
         mkConn (produtos c) (movimentos c) (id + 1)
                (movimentos_id_seq c) (agora c))
    | None =>
        let p := mkProduto id cod e d n u (Some f0) (Some f0) (Some f0)
                           lead fs (agora c) (agora c) in
        (Ok p, mkConn (produtos c ++ [p]) (movimentos c) (id + 1)
                      (movimentos_id_seq c) (agora c))
    end.

(** [INSERT INTO movimentos(...)]: [produto_id] REFERENCES
    [produtos(id)]. *)
Definition insert_movimento (pid : Z) (t : string) (q : F) (pu : option F)
           (o doc : option string) (data : Z) : M unit :=
  fun c =>
    let id := movimentos_id_seq c in
    let c1 := mkConn (produtos c) (movimentos c) (produtos_id_seq c)
                     (id + 1) (agora c) in
    match produto_por_id c pid with
    | None => (Raise IntegrityError, c1)
    | Some _ =>
        (Ok tt, mkConn (produtos c)
                       (movimentos c ++ [mkMovimento id pid t q pu o doc data])
                       (produtos_id_seq c) (id + 1) (agora c))
    end.

(** *** [atualizar_preco_medio_e_estoque] (main.py, lines 83-105)

    [novo_estoque_e_preco] is the branch on the kind, lines 91-100: the
    new stock and the new average cost. *)
Definition novo_estoque_e_preco (tipo : string) (estoque_atual preco_medio
           quantidade preco_unit : F) : result (F * F) :=
  if (upper tipo =? "ENTRADA")%string then
    let total_valor := fadd (fmul estoque_atual preco_medio)
                            (fmul quantidade preco_unit) in
    let novo_estoque := fadd estoque_atual quantidade in
    novo_preco <-? (if flt f0 novo_estoque
                    then truediv total_valor novo_estoque
                    else Ok preco_medio) ;;
    Ok (novo_estoque, novo_preco)
  else if (upper tipo =? "SAIDA")%string then
    Ok (py_max f0 (fsub estoque_atual quantidade), preco_medio)
  else
    Ok (py_max f0 (fadd estoque_atual quantidade), preco_medio).

Definition atualizar_preco_medio_e_estoque (produto_id : Z) (tipo : string)
           (quantidade preco_unit : F) : M unit :=
  c <- get ;;
  match produto_por_id c produto_id with
  | None => raise (HTTPException 404 "Produto não encontrado")
  | Some row =>
      let estoque_atual := float_or_zero (estoque_atual row) in
      let preco_medio := float_or_zero (preco_medio row) in
      novo <- lift (novo_estoque_e_preco tipo estoque_atual preco_medio
                                         quantidade preco_unit) ;;
      modify (update_produtos produto_id
                (fun p => set_estoque_preco p (fst novo) (snd novo) (agora c)))
  end.

(** *** [calcular_consumo_medio] (lines 107-117) *)
Definition timedelta_days (d : Z) : Z := d * 86400000000.

(** [datetime.min] and [datetime.max]: 0001-01-01T00:00:00 and
    9999-12-31T23:59:59.999999. *)
Definition datetime_min : Z := -62135596800000000.

Definition datetime_max : Z := 253402300799999999.

(** [now - timedelta(days=dias)] (lines 108 and 139): [timedelta] raises
    [OverflowError] for more than 999999999 days either way, and so does
    the subtraction when the result is not a [datetime]. *)
Definition desde (agora dias : Z) : result Z :=
  if Z.abs dias <=? 999999999 then
    let since := agora - timedelta_days dias in
    if (datetime_min <=? since) && (since <=? datetime_max)
    then Ok since
    else Raise OverflowError
  else Raise OverflowError.

(** [SUM(...)] is NULL over no rows; [COALESCE(_, 0)] turns that to 0. *)
Definition sql_sum (l : list numeric) : option numeric :=
  match l with
  | [] => None
  | x :: xs => Some (fold_left nadd xs x)
  end.

Definition coalesce {A : Type} (v : option A) (d : A) : A :=
  match v with
  | Some x => x
  | None => d
  end.

Definition saidas_desde (c : conn) (id since : Z) : list movimento :=
  filter (fun m => (produto_id m =? id) && (tipo m =? "SAIDA")%string
                   && (since <=? data_mov m))
         (movimentos c).

(** [float(q)], [q] the scalar of the query of lines 110-113. *)
Definition soma_saidas (c : conn) (id since : Z) : F :=
  of_numeric
    (coalesce (sql_sum (map (fun m => to_numeric (quantidade m))
                            (saidas_desde c id since))) n0).

Definition calcular_consumo_medio (produto_id : Z) (dias : Z) : M F :=
  c <- get ;;
  since <- lift (desde (agora c) dias) ;;
  let q := soma_saidas c produto_id since in
  consumo_medio <- lift (if 0 <? dias then truediv_int q dias else Ok f0) ;;
  modify (update_produtos produto_id (fun p => set_consumo p consumo_medio)) ;;;
  ret consumo_medio.

(** *** [calcular_min_max_sugestao] (lines 119-135) *)
Record sugestao_out : Type := mkSugestao {
  estoque_min : F;
  estoque_max : F;
  sugestao_compra : F
}.

Definition calcular_min_max_sugestao (produto_id : Z) : M sugestao_out :=
  c <- get ;;
  match produto_por_id c produto_id with
  | None => raise (HTTPException 404 "Produto não encontrado")
  | Some row =>
      lift (
        consumo0 <-? to_float (consumo_medio_dia row) ;;
        let consumo := float_or consumo0 f0 in
        lead0 <-? to_int (lead_time_dias row) ;;
        let lead := int_or lead0 7 in
        fs0 <-? to_float (fator_seguranca row) ;;
        let fs := float_or fs0 (of_Q (12 # 10)) in
        let estoque_min := fmul consumo (of_int lead) in
        let estoque_max := fmul estoque_min fs in
        estoque <-? to_float (estoque_atual row) ;;
        let sugerido := py_max f0 (fsub estoque_max estoque) in
        Ok (mkSugestao (fround2 estoque_min) (fround2 estoque_max)
                       (fround2 sugerido)))
  end.

(** *** [curva_abc] (lines 149-171) *)
Record item_abc : Type := mkItem {
  it_id : Z;
  it_descricao : string;
  valor : F
}.

Record linha_abc : Type := mkLinhaAbc {
  abc_id : Z;
  abc_descricao : string;
  abc_valor : F;
  perc : F;
  acumulado : F;
  classe : string
}.

(** The aggregate of the LEFT JOIN for one product, read with [float]
    at line 160: a product without a movement in the window still has one
    joined row, all NULL, which the CASE sends to 0. *)
Definition q_saida (c : conn) (p : produto) (since : Z) : F :=
  let joined := filter (fun m => (produto_id m =? prod_id p)
                                 && (since <=? data_mov m)) (movimentos c) in
  let parcelas :=
    match joined with
    | [] => [n0]
    | _ => map (fun m => if (tipo m =? "SAIDA")%string
                         then to_numeric (quantidade m) else n0) joined
    end in
  of_numeric (coalesce (sql_sum parcelas) n0).

(** First loop: one item per row, in the order of the rows. *)
Definition item_de (c : conn) (since : Z) (p : produto) : item_abc :=
  mkItem (prod_id p) (descricao p)
         (fmul (q_saida c p since) (float_or (float_or_zero (preco_medio p)) f0)).

Definition itens_abc (c : conn) (since : Z) : list item_abc :=
  map (item_de c since) (produtos c).

Definition total_de (itens : list item_abc) : F :=
  fold_left (fun t it => fadd t (valor it)) itens f0.

(** [itens.sort(key=..., reverse=True)]: descending and stable; this is
    the result of [list.sort] whenever [<] orders the keys. *)
Fixpoint insere_desc (x : item_abc) (l : list item_abc) : list item_abc :=
  match l with
  | [] => [x]
  | y :: l' => if flt (valor x) (valor y)
               then y :: insere_desc x l'
               else x :: y :: l'
  end.

Definition sort_desc (l : list item_abc) : list item_abc :=
  fold_right insere_desc [] l.

Definition classe_de (acumulado : F) : string :=
  if fle acumulado (of_int 80) then "A"
  else if fle acumulado (of_int 95) then "B" else "C".

Definition perc_de (total_valor : F) (it : item_abc) : result F :=
  if flt f0 total_valor
  then q <-? truediv (valor it) total_valor ;; Ok (fmul q (of_int 100))
  else Ok f0.

(** Second loop. *)
Fixpoint abc_loop (total_valor acumulado : F) (itens : list item_abc)
  : result (list linha_abc) :=
  match itens with
  | [] => Ok []
  | it :: rest =>
      perc <-? perc_de total_valor it ;;
      let acumulado := fadd acumulado perc in
      let classe := classe_de acumulado in
      out <-? abc_loop total_valor acumulado rest ;;
      Ok (mkLinhaAbc (it_id it) (it_descricao it) (valor it)
                     (fround2 perc) (fround2 acumulado) classe :: out)
  end.



(** [x] does not come before [y] in a descending order. *)
Definition nao_abaixo (x y : item_abc) : Prop := flt (valor x) (valor y) = false.

(** The start of the window (line 150) is taken as the plain difference
    of the two instants; the [OverflowError] of a window that leaves the
    calendar (see [desde]) is not represented here. *)
Definition curva_abc (dias : Z) : M (list linha_abc) :=
  c <- get ;;
  let since := agora c - timedelta_days dias in
  let itens := itens_abc c since in
  let total_valor := total_de itens in
  lift (abc_loop total_valor f0 (sort_desc itens)).

(** *** [criar_produto] (lines 181-189)

    A [ProdutoIn] holds the fields after pydantic has filled the defaults
    of the ones left out ("UN", 7, 1.2); a field sent as null is [None]. *)
Record ProdutoIn : Type := mkProdutoIn {
  pin_codigo : option string;
  pin_ean : option string;
  pin_descricao : string;
  pin_ncm : option string;
  pin_unidade : option string;
  pin_lead_time_dias : option Z;
  pin_fator_seguranca : option F
}.

Record ProdutoOut : Type := mkProdutoOut {
  pout_id : Z;
  pout_codigo : option string;
  pout_ean : option string;
  pout_descricao : string;
  pout_ncm : option string;
  pout_unidade : option string;
  pout_lead_time_dias : option Z;
  pout_fator_seguranca : F;
  pout_preco_medio : F;
  pout_estoque_atual : F
}.

Definition criar_produto (p : ProdutoIn) : M ProdutoOut :=
  begin (
    res <- insert_produto (pin_codigo p) (pin_ean p) (pin_descricao p)
                          (pin_ncm p) (pin_unidade p)
                          (pin_lead_time_dias p) (pin_fator_seguranca p) ;;
    ret (mkProdutoOut (prod_id res) (codigo res) (ean res) (descricao res)
                      (ncm res) (unidade res) (lead_time_dias res)
                      (float_or (float_or_zero (fator_seguranca res))
                                (of_Q (12 # 10)))
                      (float_or (float_or_zero (preco_medio res)) f0)
                      (float_or (float_or_zero (estoque_atual res)) f0))).

(** *** [lancar_movimento] (lines 191-202) *)
Record MovimentoIn : Type := mkMovimentoIn {
  in_produto_id : Z;
  in_tipo : string;
  in_quantidade : F;
  in_preco_unit : option F;
  in_origem : option string;
  in_documento : option string;
  in_data_mov : option Z
}.

(** [m.preco_unit or 0]. *)
Definition preco_or_0 (v : option F) : F :=
  match v with
  | Some x => float_or x f0
  | None => f0
  end.

Definition lancar_movimento (m : MovimentoIn) : M unit :=
  if negb (py_in (upper (in_tipo m)) tipos_validos)
  then raise (HTTPException 400 "Tipo inválido")
  else
    begin (
      c <- get ;;
      insert_movimento (in_produto_id m) (upper (in_tipo m)) (in_quantidade m)
                       (Some (preco_or_0 (in_preco_unit m)))
                       (in_origem m) (in_documento m)
                       (match in_data_mov m with
                        | Some d => d
                        | None => agora c
                        end) ;;;
      atualizar_preco_medio_e_estoque (in_produto_id m) (in_tipo m)
                                      (in_quantidade m)
                                      (preco_or_0 (in_preco_unit m)) ;;;
      calcular_consumo_medio (in_produto_id m) 30 ;;;
      ret tt).

(** *** [importar_excel] (lines 274-302): the loop over the rows

    A [linha] is one row as lines 276-283 extract it, the kind still as
    written in the sheet; reading the file and checking the header come
    before and are not modelled, and neither is a row whose quantity or
    price cell [float] cannot convert (lines 282-283 then raise, before
    the kind is looked at). *)
Record linha : Type := mkLinha {
  l_codigo : option string;
  l_descricao : string;
  l_ean : string;
  l_ncm : string;
  l_unidade : string;
  l_tipo : string;
  l_quantidade : F;
  l_preco_unit : F
}.

(** Line 295: the INSERT names five columns; lead time and safety factor
    take the defaults 7 and 1.2 of the DDL. *)
Definition insert_da_linha (row : linha) : M Z :=
  p <- insert_produto (l_codigo row) (Some (l_ean row)) (l_descricao row)
                      (Some (l_ncm row)) (Some (l_unidade row))
                      (Some 7) (Some (of_Q (12 # 10))) ;;
  ret (prod_id p).

(** Lines 288-295: find the product by code and refresh it, else insert. *)
Definition upsert_por_codigo (row : linha) : M Z :=
  c <- get ;;
  pid <- match (if match l_codigo row with
                   | Some s => negb (s =? "")%string
                   | None => false
                   end
                then produto_por_codigo c (l_codigo row) else None) with
         | Some r =>
             modify (update_produtos (prod_id r)
                       (fun p => set_cadastro p (Some (l_ean row)) (l_descricao row)
                                   (Some (l_ncm row)) (Some (l_unidade row))
                                   (atualizado_em p))) ;;;
             ret (Some (prod_id r))
         | None => ret None
         end ;;
  match pid with
  | Some id => if id =? 0 then insert_da_linha row else ret id
  | None => insert_da_linha row
  end.

Fixpoint importar_linhas (doc : option string) (rows : list linha)
         (inseridos : Z) : M Z :=
  match rows with
  | [] => ret inseridos
  | row :: rest =>
      let tipo := upper (l_tipo row) in
      if negb (py_in tipo tipos_validos)
      then importar_linhas doc rest inseridos
      else
        pid <- upsert_por_codigo row ;;
        c <- get ;;
        insert_movimento pid tipo (l_quantidade row) (Some (l_preco_unit row))
                         (Some "EXCEL") doc (agora c) ;;;
        atualizar_preco_medio_e_estoque pid tipo (l_quantidade row)
                                        (l_preco_unit row) ;;;
        calcular_consumo_medio pid 30 ;;;
        importar_linhas doc rest (inseridos + 1)
  end.

Definition importar_excel (doc : option string) (rows : list linha) : M Z :=
  begin (importar_linhas doc rows 0).

(** *** Sequences of movements

    The engine called once per movement, in order: [(kind, quantity,
    unit price)] triples applied to one product. *)
Fixpoint aplicar_movimentos (produto_id : Z) (movs : list (string * F * F))
  : M unit :=
  match movs with
  | [] => ret tt
  | (tipo, quantidade, preco_unit) :: rest =>
      atualizar_preco_medio_e_estoque produto_id tipo quantidade preco_unit ;;;
      aplicar_movimentos produto_id rest
  end.

(** The state of a product as the engine reads it. *)
Definition estoque_de (c : conn) (id : Z) : option F :=
  option_map (fun p => float_or_zero (estoque_atual p)) (produto_por_id c id).

Definition preco_de (c : conn) (id : Z) : option F :=
  option_map (fun p => float_or_zero (preco_medio p)) (produto_por_id c id).
End Rules.

(** ** The remaining queries and the XML import *)
Section Consultas_e_Importacao.
Context {F : Type} `{PyFloat F} `{PyStr}.

Local Abbreviation produto := (@produto F).
Local Abbreviation movimento := (@movimento F).
Local Abbreviation conn := (@conn F).
Local Abbreviation M := (@M F).

(** *** [calcular_giro] (lines 137-147)

    The rows of the inner SELECT of line 145: one per movement of the
    product in the window, carrying the current [estoque_atual] of the
    product it joins; AVG skips the NULLs and is NULL over no row. *)
Definition estoques_na_janela (c : conn) (id since : Z) : list numeric :=
  flat_map
    (fun m =>
       if (produto_id m =? id) && (since <=? data_mov m)
       then flat_map (fun pr => if prod_id pr =? produto_id m
                                then match estoque_atual pr with
                                     | Some x => [to_numeric x]
                                     | None => []
                                     end
                                else [])
                     (produtos c)
       else [])
    (movimentos c).

Definition sql_avg (l : list numeric) : option numeric :=
  match sql_sum l with
  | Some s => Some (ndiv s (Z.of_nat (List.length l)))
  | None => None
  end.

Record giro_out : Type := mkGiro {
  g_periodo_dias : Z;
  g_cogs_aprox : F;
  g_estoque_medio_aprox : F;
  g_giro : F
}.

(** The body of the loop of lines 142-145 on the pair
    [(cogs, estoque_medio)]. *)
Definition giro_passo (c : conn) (since : Z) (acc : F * F) (p : produto) : F * F :=
  let saida_q := soma_saidas c (prod_id p) since in
  (fadd (fst acc)
        (fmul saida_q (float_or (float_or_zero (preco_medio p)) f0)),
   fadd (snd acc)
        (float_or (of_numeric
                     (coalesce (sql_avg (estoques_na_janela c (prod_id p) since))
                               n0))
                  f0)).

Definition calcular_giro (dias : Z) : M giro_out :=
  c <- get ;;
  since <- lift (desde (agora c) dias) ;;
  let acc := fold_left (giro_passo c since) (produtos c) (f0, f0) in
  let cogs := fst acc in
  let estoque_medio := snd acc in
  giro <- lift (if flt f0 estoque_medio
                then truediv cogs estoque_medio
                else Ok f0) ;;
  ret (mkGiro dias (fround2 cogs) (fround2 estoque_medio) (fround2 giro)).

(** *** The read endpoints (lines 304-323) *)
Definition sugestao (produto_id : Z) : M sugestao_out :=
  begin (calcular_min_max_sugestao produto_id).

Definition giro (dias : Z) : M giro_out := begin (calcular_giro dias).

Definition abc (dias : Z) : M (list linha_abc) := begin (curva_abc dias).

Record capital_out : Type := mkCapital {
  cg_dias : Z;
  cg_valor_estoque : F;
  cg_contas_pagar : F;
  cg_contas_receber : F;
  cg_capital_giro_aprox : F
}.

(** [SUM(estoque_atual*preco_medio)]: a product with a NULL factor gives
    a NULL term, which SUM skips. *)
Definition parcelas_de_valor (l : list produto) : list numeric :=
  flat_map (fun p => match estoque_atual p, preco_medio p with
                     | Some e, Some pm => [nmul (to_numeric e) (to_numeric pm)]
                     | _, _ => []
                     end) l.

Definition valor_estoque (c : conn) : F :=
  of_numeric (coalesce (sql_sum (parcelas_de_valor (produtos c))) n0).

Definition capital_de_giro (dias : Z) : M capital_out :=
  v <- begin (c <- get ;; ret (valor_estoque c)) ;;
  ret (mkCapital dias v f0 f0 v).

(** *** [importar_xml_nfe] (lines 216-253): the loop over the items

    An [item_nfe] is what lines 227-233 read from the [prod] element of
    one [det], with [x_q] and [x_v] the values [float] returns at lines
    232-233; a [det] without [prod] is [None].  Parsing the document comes
    before and is not modelled, and neither is an item whose [qCom] or
    [vUnCom] is not the text of a number. *)
Record item_nfe : Type := mkItemNfe {
  x_codigo : option string;
  x_ean : option string;
  x_desc : string;
  x_ncm : option string;
  x_unidade : string;
  x_q : F;
  x_v : F
}.

(** Lines 235-243. *)
Definition upsert_nfe (it : item_nfe) : M Z :=
  c <- get ;;
  match produto_por_codigo c (x_codigo it) with
  | Some r =>
      modify (update_produtos (prod_id r)
                (fun p => set_cadastro p (x_ean it) (x_desc it) (x_ncm it)
                                       (Some (x_unidade it)) (agora c))) ;;;
      ret (prod_id r)
  | None =>
      p <- insert_produto (x_codigo it) (x_ean it) (x_desc it) (x_ncm it)
                          (Some (x_unidade it)) (Some 7) (Some (of_Q (12 # 10))) ;;
      ret (prod_id p)
  end.

Fixpoint importar_itens (doc : option string) (itens : list (option item_nfe))
         (inseridos : Z) : M Z :=
  match itens with
  | [] => ret inseridos
  | None :: rest => importar_itens doc rest inseridos
  | Some it :: rest =>
      pid <- upsert_nfe it ;;
      c <- get ;;
      insert_movimento pid "ENTRADA" (x_q it) (Some (x_v it))
                       (Some "XML") doc (agora c) ;;;
      atualizar_preco_medio_e_estoque pid "ENTRADA" (x_q it) (x_v it) ;;;
      calcular_consumo_medio pid 30 ;;;
      importar_itens doc rest (inseridos + 1)
  end.

Definition importar_xml_nfe (doc : option string)
           (itens : list (option item_nfe)) : M Z :=
  begin (importar_itens doc itens 0).

(** *** Well-formed stores

    What the SERIAL primary key gives: the ids in use are positive,
    distinct and below the next value of the sequence. *)
Definition ids_validos (c : conn) : Prop :=
  0 < produtos_id_seq c /\
  NoDup (map prod_id (produtos c)) /\
  Forall (fun i => 0 < i < produtos_id_seq c) (map prod_id (produtos c)).

End Consultas_e_Importacao.

(** ** Rounding to two decimals *)

(** The integer nearest to [q], ties to the even one. *)
Definition round_half_even (q : Q) : Z :=
  let n := Qfloor q in
  match Qcompare (q - inject_Z n) (1 # 2) with
  | Lt => n
  | Gt => n + 1
  | Eq => if Z.even n then n else n + 1
  end.

(** ** The instance: IEEE binary64, the [float] of CPython

    Arithmetic is the primitive binary64 arithmetic.  Comparisons and
    the zero test read the operands through [Prim2SF], that is IEEE 754
    comparison as [SpecFloat] defines it. *)
Module B64.

Definition lt (x y : float) : bool := SFltb (Prim2SF x) (Prim2SF y).

Definition le (x y : float) : bool := SFleb (Prim2SF x) (Prim2SF y).

Definition is0 (x : float) : bool :=
  match Prim2SF x with
  | S754_zero _ => true
  | _ => false
  end.

(** The binary64 value nearest to the rational [q] (ties to even): how
    CPython reads a decimal literal and converts an [int]. *)
Definition of_Q (q : Q) : float :=
  match Qnum q with
  | Z0 => PrimFloat.zero
  | Zpos n => SF2Prim (SFdiv prec emax (S754_finite false n 0)
                             (S754_finite false (Qden q) 0))
  | Zneg n => SF2Prim (SFdiv prec emax (S754_finite true n 0)
                             (S754_finite false (Qden q) 0))
  end.

(** The exact value of a finite float with mantissa [m] and exponent [e]. *)
Definition exact (s : bool) (m : positive) (e : Z) : Q :=
  let a := if s then Zneg m else Zpos m in
  match e with
  | Zneg k => a # (2 ^ k)
  | _ => inject_Z (a * 2 ^ e)
  end.

(** [round(x, 2)]: CPython rounds the exact value of [x] to two decimals,
    ties to even, and reads the decimal back as a float; NaN, the
    infinities and the zeros are returned as they are. *)
Definition round2 (x : float) : float :=
  match Prim2SF x with
  | S754_finite s m e =>
      let n := round_half_even (100 * exact s m e) in
      if n =? 0 then (if s then PrimFloat.neg_zero else PrimFloat.zero)
      else of_Q (n # 100)
  | _ => x
  end.

(** The decimal with 15 significant digits nearest to [v > 0], the one
    [float8 -> numeric] goes through: [escala v] is the power of ten that
    brings [v] into [10^14, 10^15). *)
Fixpoint desce (fuel : nat) (v : Q) (s : Z) : Z :=
  match fuel with
  | O => s
  | S f => if Qle_bool (inject_Z (10 ^ 15)) (v * Qpower (inject_Z 10) s)%Q
           then desce f v (s - 1) else s
  end.

Fixpoint sobe (fuel : nat) (v : Q) (s : Z) : Z :=
  match fuel with
  | O => s
  | S f => if Qle_bool (inject_Z (10 ^ 14)) (v * Qpower (inject_Z 10) s)%Q
           then s else sobe f v (s + 1)
  end.

Definition escala (v : Q) : Z := sobe 400 v (desce 400 v 0).

Definition decimal15 (v : Q) : Q :=
  let s := escala v in
  (inject_Z (round_half_even (v * Qpower (inject_Z 10) s))
   * Qpower (inject_Z 10) (- s))%Q.

(** The values of PostgreSQL's NUMERIC: a decimal, an infinity or NaN. *)
Inductive numeric : Type :=
| Num (q : Q)
| NumInf (s : bool)
| NumNaN.

(** What a NUMERIC(14,4) column holds after the float [x] is written to
    it.  The driver sends a [float8]; PostgreSQL converts it to NUMERIC
    through its 15 significant digits and the column rounds the result
    to four decimals, a tie away from zero. *)
Definition to_numeric (x : float) : numeric :=
  match Prim2SF x with
  | S754_zero _ => Num 0
  | S754_infinity s => NumInf s
  | S754_nan => NumNaN
  | S754_finite s m e =>
      let t := (decimal15 (exact false m e) * inject_Z 10000)%Q in
      let n := Qfloor t in
      let k := match Qcompare (t - inject_Z n)%Q (1 # 2) with
               | Lt => n
               | _ => n + 1
               end in
      Num (Qred ((if s then - k else k) # 10000))
  end.

(** [float(d)]: the nearest binary64 value. *)
Definition of_numeric (d : numeric) : float :=
  match d with
  | Num q => of_Q q
  | NumInf false => PrimFloat.infinity
  | NumInf true => PrimFloat.neg_infinity
  | NumNaN => PrimFloat.nan
  end.

Definition nadd (a b : numeric) : numeric :=
  match a, b with
  | NumNaN, _ | _, NumNaN => NumNaN
  | NumInf s, NumInf s' => if Bool.eqb s s' then NumInf s else NumNaN
  | NumInf s, Num _ | Num _, NumInf s => NumInf s
  | Num x, Num y => Num (Qred (x + y)%Q)
  end.

Definition negativo (q : Q) : bool := Qnum q <? 0.

Definition nmul (a b : numeric) : numeric :=
  match a, b with
  | NumNaN, _ | _, NumNaN => NumNaN
  | NumInf s, NumInf s' => NumInf (xorb s s')
  | NumInf s, Num q | Num q, NumInf s =>
      if Qnum q =? 0 then NumNaN else NumInf (xorb s (negativo q))
  | Num x, Num y => Num (Qred (x * y)%Q)
  end.

(** The quotient of [AVG], kept exact; PostgreSQL rounds it to at least
    16 significant digits. *)
Definition ndiv (a : numeric) (n : Z) : numeric :=
  match a with
  | Num x => Num (Qred (x / inject_Z n)%Q)
  | other => other
  end.

End B64.

(** ** [str.upper] on ASCII text

    On a string of ASCII characters [str.upper] changes the letters a-z
    only; this instance is used where the kinds are ASCII. *)
Definition ascii_upper (a : ascii) : ascii :=
  let n := nat_of_ascii a in
  if (Nat.leb 97 n && Nat.leb n 122)%bool then ascii_of_nat (n - 32) else a.

Fixpoint upper_ascii (s : string) : string :=
  match s with
  | EmptyString => EmptyString
  | String a s' => String (ascii_upper a) (upper_ascii s')
  end.

(** ** The instance *)
#[export] Instance binary64 : PyFloat float := {
  f0 := PrimFloat.zero;
  of_Q := B64.of_Q;
  fadd := PrimFloat.add;
  fsub := PrimFloat.sub;
  fmul := PrimFloat.mul;
  fdiv := PrimFloat.div;
  flt := B64.lt;
  fle := B64.le;
  fis0 := B64.is0;
  fround2 := B64.round2;
  numeric := B64.numeric;
  to_numeric := B64.to_numeric;
  of_numeric := B64.of_numeric;
  n0 := B64.Num 0;
  nadd := B64.nadd;
  nmul := B64.nmul;
  ndiv := B64.ndiv
}.

Definition upper_py_ascii : PyStr := {| upper := upper_ascii |}.

(** ** Concrete stores for the scenarios (binary64, ASCII kinds) *)
Module Cenario.

#[local] Existing Instance upper_py_ascii.

Definition F64 (q : Q) : float := B64.of_Q q.

Definition exec {A : Type} (m : @M float A) (c : @conn float) : @conn float :=
  snd (m c).

(** An empty database whose sequences start at 1. *)
Definition vazio : @conn float := mkConn [] [] 1 1 1762214400000000.

(** POST /produtos with a description only: stock 0, average cost 0,
    lead time 7, safety factor 1.2. *)
Definition novo_produto (d : string) : @M float (@ProdutoOut float) :=
  criar_produto (mkProdutoIn None None d None (Some "UN") (Some 7)
                             (Some (F64 (12 # 10)))).

Definition um_produto : @conn float := exec (novo_produto "arroz") vazio.

Definition mov (t : string) (q pu : Q) : string * float * float :=
  (t, F64 q, F64 pu).

(** Scenario 1. *)
Definition apos_entrada_1 : @conn float :=
  exec (aplicar_movimentos 1 [mov "ENTRADA" 10 2]) um_produto.

Definition apos_entrada_2 : @conn float :=
  exec (aplicar_movimentos 1 [mov "ENTRADA" 10 4]) apos_entrada_1.

(** Scenarios 2 and 3. *)
Definition apos_saida_5 : @conn float :=
  exec (aplicar_movimentos 1 [mov "SAIDA" 5 0]) apos_entrada_2.

Definition apos_saida_100 : @conn float :=
  exec (aplicar_movimentos 1 [mov "SAIDA" 100 0]) apos_saida_5.

(** An inbound movement with a negative quantity on a new product. *)
Definition apos_entrada_negativa : @conn float :=
  exec (aplicar_movimentos 1 [mov "ENTRADA" (-5) 3]) um_produto.

Definition lanca (pid : Z) (t : string) (q pu : Q) : @M float unit :=
  lancar_movimento (mkMovimentoIn pid t (F64 q) (Some (F64 pu))
                                  (Some "MANUAL") None None).

(** Scenario 5: two products whose outbound value in the window is 800
    and 200 (100 units out at average cost 8.00 and 2.00). *)
Definition dois_produtos : @conn float :=
  exec (novo_produto "produto A" ;;;
        novo_produto "produto B" ;;;
        lanca 1 "ENTRADA" 100 8 ;;;
        lanca 1 "SAIDA" 100 0 ;;;
        lanca 2 "ENTRADA" 100 2 ;;;
        lanca 2 "SAIDA" 100 0) vazio.

(** Scenario 4: 65 units in, 60 units out in the last 30 days leave a
    stock of 5 and a consumption of 2 a day; lead time 7, factor 1.2. *)
Definition consumo_2_estoque_5 : @conn float :=
  exec (novo_produto "feijao" ;;;
        lanca 1 "ENTRADA" 65 1 ;;;
        lanca 1 "SAIDA" 60 0) vazio.

(** The same product registered with a lead time of 0 days. *)
Definition lead_time_zero : @conn float :=
  exec (criar_produto (mkProdutoIn None None "feijao" None (Some "UN") (Some 0)
                                   (Some (F64 (12 # 10)))) ;;;
        lanca 1 "ENTRADA" 65 1 ;;;
        lanca 1 "SAIDA" 60 0) vazio.

(** A product registered with [lead_time_dias] sent as null. *)
Definition lead_time_nulo : @conn float :=
  exec (criar_produto (mkProdutoIn None None "feijao" None (Some "UN") None
                                   (Some (F64 (12 # 10))))) vazio.

Definition cenario_4 : Prop :=
  fst (calcular_min_max_sugestao 1 consumo_2_estoque_5) =
  Ok (mkSugestao (F64 14) (F64 (168 # 10)) (F64 (118 # 10))).




(** Scenario 6: a sheet whose second row has the kind DEVOLUCAO. *)
Definition linha_de (cod t : string) (q pu : Q) : @linha float :=
  mkLinha (Some cod) "item" "None" "None" "UN" t (F64 q) (F64 pu).

Definition planilha : list (@linha float) :=
  [linha_de "A1" "entrada" 10 2; linha_de "A1" "DEVOLUCAO" 3 2;
   linha_de "A1" "saida" 4 0].

Definition cenario_6 : Prop :=
  fst (importar_excel (Some "estoque.xlsx") planilha vazio) = Ok 2 /\
  map tipo (movimentos (exec (importar_excel (Some "estoque.xlsx") planilha) vazio))
  = ["ENTRADA"; "SAIDA"] /\
  estoque_de (exec (importar_excel (Some "estoque.xlsx") planilha) vazio) 1
  = Some (F64 6).

(** The rows the stores above hold for product 1. *)
Definition arroz_novo : @produto float :=
  mkProduto 1 None None "arroz" None (Some "UN") (Some (F64 0)) (Some (F64 0))
            (Some (F64 0)) (Some 7) (Some (F64 (12 # 10)))
            1762214400000000 1762214400000000.

Definition arroz_20_3 : @produto float :=
  set_estoque_preco arroz_novo (F64 20) (F64 3) 1762214400000000.

Definition feijao_2_5 : @produto float :=
  mkProduto 1 None None "feijao" None (Some "UN") (Some (F64 1)) (Some (F64 5))
            (Some (F64 2)) (Some 7) (Some (F64 (12 # 10)))
            1762214400000000 1762214400000000.

(** Scenario 1 as the specification words it. *)
Definition cenario_1 : Prop :=
  estoque_de um_produto 1 = Some (F64 0) /\ preco_de um_produto 1 = Some (F64 0) /\
  estoque_de apos_entrada_1 1 = Some (F64 10) /\
  preco_de apos_entrada_1 1 = Some (F64 2) /\
  estoque_de apos_entrada_2 1 = Some (F64 20) /\
  preco_de apos_entrada_2 1 = Some (F64 3).

End Cenario.

(** ** More stores *)
Module Cenario2.

#[local] Existing Instance upper_py_ascii.

Import Cenario.

(** An invoice with two items and one [det] without [prod]. *)
Definition nota : list (option (@item_nfe float)) :=
  [Some (mkItemNfe (Some "A1") (Some "789") "arroz" None "KG" (F64 10) (F64 2));
   None;
   Some (mkItemNfe (Some "B2") None "feijao" None "KG" (F64 4) (F64 6))].

(** The store after the sheet of scenario 6: one product, code A1. *)
Definition apos_planilha : @conn float :=
  exec (importar_excel (Some "estoque.xlsx") planilha) vazio.

Definition produto_A1 : @produto float :=
  match produto_por_codigo apos_planilha (Some "A1") with
  | Some r => r
  | None => arroz_novo
  end.

Definition pedido_arroz : @ProdutoIn float :=
  mkProdutoIn (Some "A1") None "arroz" None (Some "UN") (Some 7)
              (Some (F64 (12 # 10))).

Definition entrada_10_a_2 : @MovimentoIn float :=
  mkMovimentoIn 1 "entrada" (F64 10) (Some (F64 2)) (Some "MANUAL") None None.

(** Movements of the three kinds, no ENTRADA below zero. *)
Definition tres_movimentos : list (string * float * float) :=
  [mov "ENTRADA" 10 2; mov "SAIDA" 100 0; mov "AJUSTE" (-3) 0].

Definition dois_itens : list (@item_abc float) :=
  [mkItem 2 "produto B" (F64 200); mkItem 1 "produto A" (F64 800)].

(** One product with three SAIDA of 0.1, 0.2 and 0.00015 units: the
    column holds 0.1000, 0.2000 and 0.0002, and their sum is 0.3002. *)
Definition saidas_decimais : @conn float :=
  exec (novo_produto "cafe" ;;;
        lanca 1 "ENTRADA" 1 1 ;;;
        lanca 1 "SAIDA" (1 # 10) 0 ;;;
        lanca 1 "SAIDA" (2 # 10) 0 ;;;
        lanca 1 "SAIDA" (15 # 100000) 0) vazio.

(** The stores and the response after the requests of the instances. *)
Definition apos_refresh : @conn float :=
  exec (calcular_consumo_medio 1 30) consumo_2_estoque_5.

Definition apos_lancamento : @conn float :=
  exec (lancar_movimento entrada_10_a_2) um_produto.

Definition apos_nota : @conn float :=
  exec (importar_xml_nfe (Some "nfe.xml") nota) vazio.

Definition apos_cadastro : @conn float :=
  exec (criar_produto pedido_arroz) vazio.

Definition resposta_arroz : @ProdutoOut float :=
  mkProdutoOut 1 (Some "A1") None "arroz" None (Some "UN") (Some 7)
               (F64 (12 # 10)) (F64 0) (F64 0).

End Cenario2.

(** * Proofs *)

(** ** Facts that hold for every float type and every [upper] *)
Section Generic.
Context {F : Type} {PF : PyFloat F} {PL : PyFloatLaws F} {PS : PyStr}.

Local Abbreviation produto := (@produto F).
Local Abbreviation conn := (@conn F).

Lemma find_map_cond (l : list produto) (id id' : Z) (f : produto -> produto) :
  (forall p, prod_id (f p) = prod_id p) ->
  find (fun p => prod_id p =? id')
       (map (fun p => if prod_id p =? id then f p else p) l) =
  if id' =? id
  then option_map f (find (fun p => prod_id p =? id') l)
  else find (fun p => prod_id p =? id') l.
Proof.
  intros Hf. induction l as [|p l IH]; simpl.
  - destruct (id' =? id); reflexivity.
  - destruct (prod_id p =? id) eqn:Ep.
    + rewrite Hf. destruct (prod_id p =? id') eqn:Ep'.
      * apply Z.eqb_eq in Ep, Ep'. subst.
        rewrite Z.eqb_refl. reflexivity.
      * exact IH.
    + destruct (prod_id p =? id') eqn:Ep'.
      * apply Z.eqb_eq in Ep'. subst id'. rewrite Ep. reflexivity.
      * exact IH.
Qed.

Lemma produto_por_id_update (c : conn) (id id' : Z) (f : produto -> produto) :
  (forall p, prod_id (f p) = prod_id p) ->
  produto_por_id (update_produtos id f c) id' =
  if id' =? id then option_map f (produto_por_id c id')
  else produto_por_id c id'.
Proof. intros Hf. unfold produto_por_id, update_produtos; simpl. now apply find_map_cond. Qed.

(** The ENTRADA branch: the guard makes the division safe. *)
Lemma novo_entrada (tipo : string) (e p q pu : F) :
  upper tipo = "ENTRADA" ->
  novo_estoque_e_preco tipo e p q pu =
  Ok (fadd e q,
      if flt f0 (fadd e q)
      then fdiv (fadd (fmul e p) (fmul q pu)) (fadd e q)
      else p).
Proof.
  intros Hu. unfold novo_estoque_e_preco. rewrite Hu. simpl.
  destruct (flt f0 (fadd e q)) eqn:Hpos; [|reflexivity].
  unfold truediv. rewrite (flt_0_nonzero _ Hpos). reflexivity.
Qed.

Lemma novo_saida (tipo : string) (e p q pu : F) :
  upper tipo = "SAIDA" ->
  novo_estoque_e_preco tipo e p q pu = Ok (py_max f0 (fsub e q), p).
Proof. intros Hu. unfold novo_estoque_e_preco. rewrite Hu. reflexivity. Qed.

(** Every other kind falls into the last branch, the one commented AJUSTE. *)
Lemma novo_outro (tipo : string) (e p q pu : F) :
  upper tipo <> "ENTRADA" -> upper tipo <> "SAIDA" ->
  novo_estoque_e_preco tipo e p q pu = Ok (py_max f0 (fadd e q), p).
Proof.
  intros H1 H2. unfold novo_estoque_e_preco.
  apply String.eqb_neq in H1, H2. rewrite H1, H2. reflexivity.
Qed.

Lemma novo_total (tipo : string) (e p q pu : F) :
  exists e' p', novo_estoque_e_preco tipo e p q pu = Ok (e', p').
Proof.
  destruct (String.eqb_spec (upper tipo) "ENTRADA") as [E1|N1].
  - rewrite (novo_entrada _ _ _ _ _ E1). eauto.
  - destruct (String.eqb_spec (upper tipo) "SAIDA") as [E2|N2].
    + rewrite (novo_saida _ _ _ _ _ E2). eauto.
    + rewrite (novo_outro _ _ _ _ _ N1 N2). eauto.
Qed.

(** What one call of the engine does to a product that exists. *)
Lemma atualizar_existente (c : conn) (pid : Z) (tipo : string) (q pu : F)
      (row : produto) (e' p' : F) :
  produto_por_id c pid = Some row ->
  novo_estoque_e_preco tipo (float_or_zero (estoque_atual row))
                       (float_or_zero (preco_medio row)) q pu = Ok (e', p') ->
  atualizar_preco_medio_e_estoque pid tipo q pu c =
  (Ok tt, update_produtos pid (fun p => set_estoque_preco p e' p' (agora c)) c).
Proof.
  intros Hrow Hnovo.
  unfold atualizar_preco_medio_e_estoque, bind, get. rewrite Hrow.
  unfold lift. rewrite Hnovo. reflexivity.
Qed.

Lemma atualizar_ausente (c : conn) (pid : Z) (tipo : string) (q pu : F) :
  produto_por_id c pid = None ->
  atualizar_preco_medio_e_estoque pid tipo q pu c =
  (Raise (HTTPException 404 "Produto não encontrado"), c).
Proof.
  intros Hrow. unfold atualizar_preco_medio_e_estoque, bind, get.
  rewrite Hrow. reflexivity.
Qed.

Lemma estado_apos_update (c : conn) (pid : Z) (row : produto) (e' p' : F) (t : Z) :
  produto_por_id c pid = Some row ->
  estoque_de (update_produtos pid (fun p => set_estoque_preco p e' p' t) c) pid
  = Some e' /\
  preco_de (update_produtos pid (fun p => set_estoque_preco p e' p' t) c) pid
  = Some p'.
Proof.
  intros Hrow. unfold estoque_de, preco_de.
  rewrite produto_por_id_update by reflexivity.
  rewrite Z.eqb_refl, Hrow. split; reflexivity.
Qed.

End Generic.

(** ** The instance satisfies the laws *)

Lemma SFcompare_Lt_Gt (a b : spec_float) :
  SFcompare a b = Some Lt -> SFcompare b a = Some Gt.
Proof.
  destruct a as [sa|sa| |sa ma ea], b as [sb|sb| |sb mb eb]; simpl;
    try discriminate;
    try (destruct sa; discriminate || reflexivity);
    try (destruct sb; discriminate || reflexivity);
    try (destruct sa, sb; discriminate || reflexivity).
  destruct sa, sb; try discriminate; try reflexivity;
    rewrite (Z.compare_antisym ea eb);
    destruct (ea ?= eb); simpl; try discriminate; try reflexivity;
    change (Pos.compare_cont Eq mb ma) with (Pos.compare mb ma);
    change (Pos.compare_cont Eq ma mb) with (Pos.compare ma mb);
    rewrite (Pos.compare_antisym ma mb);
    destruct (Pos.compare ma mb); simpl; discriminate || reflexivity.
Qed.

Lemma b64_zero_spec : Prim2SF PrimFloat.zero = S754_zero false.
Proof. vm_compute. reflexivity. Qed.

#[export] Instance binary64_laws : PyFloatLaws float.
Proof.
  split.
  - intros x. cbn. unfold B64.lt, B64.is0. rewrite b64_zero_spec.
    destruct (Prim2SF x) as [s|s| |s m e]; simpl; try discriminate; reflexivity.
  - intros x. cbn. unfold B64.lt, B64.is0. rewrite b64_zero_spec.
    destruct (Prim2SF x) as [s|s| |s m e]; simpl; try discriminate; reflexivity.
  - intros x y. cbn. unfold B64.lt, SFltb.
    destruct (SFcompare (Prim2SF x) (Prim2SF y)) as [[| |]|] eqn:E;
      try discriminate.
    intros _. rewrite (SFcompare_Lt_Gt _ _ E). reflexivity.
  - vm_compute. reflexivity.
  - vm_compute. reflexivity.
  - vm_compute. reflexivity.
Qed.

#[export] Instance binary64_numeric : NumericLaws float.
Proof. split. vm_compute. reflexivity. Qed.

(** The comparisons of the binary64 instance are the primitive ones
    (by the specification of the primitives). *)
Lemma b64_lt_primitivo (x y : float) : B64.lt x y = PrimFloat.ltb x y.
Proof. unfold B64.lt. symmetry. apply ltb_spec. Qed.

Lemma b64_le_primitivo (x y : float) : B64.le x y = PrimFloat.leb x y.
Proof. unfold B64.le. symmetry. apply leb_spec. Qed.

Lemma b64_is0_primitivo (x : float) : B64.is0 x = PrimFloat.eqb x PrimFloat.zero.
Proof.
  unfold B64.is0. rewrite FloatAxioms.eqb_spec, b64_zero_spec.
  destruct (Prim2SF x) as [s|s| |s m e]; try reflexivity; destruct s; reflexivity.
Qed.

(** A spec float that is not below zero: NaN, a zero, or positive. *)
Definition sf_nao_negativo (s : spec_float) : bool :=
  match s with
  | S754_infinity true | S754_finite true _ _ => false
  | _ => true
  end.

Lemma sf_nao_negativo_lt (s : spec_float) :
  SFltb s (S754_zero false) = false <-> sf_nao_negativo s = true.
Proof.
  destruct s as [sg|sg| |sg m e]; try destruct sg;
    unfold SFltb, SFcompare, sf_nao_negativo; split; intros; congruence.
Qed.

Lemma binary_round_nao_negativo (m : positive) (e : Z) :
  sf_nao_negativo (binary_round prec emax false m e) = true.
Proof.
  unfold binary_round, binary_round_aux.
  destruct (shl_align m e _) as [mz ez].
  destruct (shr_fexp prec emax (Zpos mz) ez loc_Exact) as [mrs e'].
  destruct (shr_fexp prec emax _ e' loc_Exact) as [mrs' e''].
  destruct (shr_m mrs'); [reflexivity| |reflexivity].
  destruct (Z.leb e'' (Z.sub emax prec)); reflexivity.
Qed.

Lemma SFadd_nao_negativo (x y : spec_float) :
  sf_nao_negativo x = true -> sf_nao_negativo y = true ->
  sf_nao_negativo (SFadd prec emax x y) = true.
Proof.
  destruct x as [sx|sx| |sx mx ex], y as [sy|sy| |sy my ey];
    try destruct sx; try destruct sy; simpl; intros Hx Hy;
    try discriminate; try reflexivity.
  apply binary_round_nao_negativo.
Qed.

#[export] Instance binary64_add : PyFloatAdd float.
Proof.
  split. intros x y. cbn. unfold B64.lt. rewrite b64_zero_spec.
  rewrite !sf_nao_negativo_lt, add_spec. apply SFadd_nao_negativo.
Qed.

(** ** The valuation engine *)
Section Motor.
Context {F : Type} {PF : PyFloat F} {PL : PyFloatLaws F} {PS : PyStr}.

Local Abbreviation produto := (@produto F).
Local Abbreviation conn := (@conn F).

(** C1. An ENTRADA on an existing product stores [stock + qty] and, when
    that is positive, the moving weighted average
    [(stock*avg_cost + qty*unit_price) / new_stock]; otherwise the cost
    is kept.  On a new product, ENTRADA 10 at 2.00 gives (10, 2.00) and
    a further ENTRADA 10 at 4.00 gives (20, 3.00). *)
Theorem entrada_media_ponderada_movel
        (c : conn) (pid : Z) (tipo : string) (qty unit_price : F) (row : produto) :
  upper tipo = "ENTRADA" ->
  produto_por_id c pid = Some row ->
  let stock := float_or_zero (estoque_atual row) in
  let avg_cost := float_or_zero (preco_medio row) in
  let new_stock := fadd stock qty in
  let new_cost :=
    if flt f0 new_stock
    then fdiv (fadd (fmul stock avg_cost) (fmul qty unit_price)) new_stock
    else avg_cost in
  (exists c',
      atualizar_preco_medio_e_estoque pid tipo qty unit_price c = (Ok tt, c') /\
      estoque_de c' pid = Some new_stock /\
      preco_de c' pid = Some new_cost)
  /\ Cenario.cenario_1.
Proof.
  intros Hu Hrow stock avg_cost new_stock new_cost. split.
  - exists (update_produtos pid
              (fun p => set_estoque_preco p new_stock new_cost (agora c)) c).
    split.
    + apply atualizar_existente with (row := row); [exact Hrow|].
      apply novo_entrada. exact Hu.
    + apply estado_apos_update with (row := row). exact Hrow.
  - unfold Cenario.cenario_1. vm_compute. repeat split; reflexivity.
Qed.

(** [max(0.0, x)] written out: [x] when [0.0 < x], and [0.0] otherwise. *)
Lemma py_max_zero (x : F) : py_max f0 x = if flt f0 x then x else f0.
Proof. reflexivity. Qed.

(** C2. A SAIDA stores [max(0, stock - qty)]: the difference when it is
    above zero and 0 otherwise.  An AJUSTE stores [max(0, stock + qty)]:
    the sum when it is above zero and 0 otherwise.  Both write back the
    average cost they read. *)
Theorem saida_e_ajuste_mantem_preco_medio
        (c : conn) (pid : Z) (tipo : string) (qty unit_price : F) (row : produto) :
  produto_por_id c pid = Some row ->
  let stock := float_or_zero (estoque_atual row) in
  let avg_cost := float_or_zero (preco_medio row) in
  (upper tipo = "SAIDA" ->
   exists c',
     atualizar_preco_medio_e_estoque pid tipo qty unit_price c = (Ok tt, c') /\
     estoque_de c' pid =
       Some (if flt f0 (fsub stock qty) then fsub stock qty else f0) /\
     preco_de c' pid = Some avg_cost /\ preco_de c' pid = preco_de c pid)
  /\
  (upper tipo = "AJUSTE" ->
   exists c',
     atualizar_preco_medio_e_estoque pid tipo qty unit_price c = (Ok tt, c') /\
     estoque_de c' pid =
       Some (if flt f0 (fadd stock qty) then fadd stock qty else f0) /\
     preco_de c' pid = Some avg_cost /\ preco_de c' pid = preco_de c pid).
Proof.
  intros Hrow stock avg_cost.
  assert (Hold : preco_de c pid = Some avg_cost)
    by (unfold preco_de; rewrite Hrow; reflexivity).
  split; intros Hu.
  - exists (update_produtos pid
              (fun p => set_estoque_preco p (py_max f0 (fsub stock qty))
                                          avg_cost (agora c)) c).
    split.
    + apply atualizar_existente with (row := row); [exact Hrow|].
      apply novo_saida. exact Hu.
    + destruct (estado_apos_update c pid row (py_max f0 (fsub stock qty))
                                   avg_cost (agora c) Hrow) as [He Hp].
      rewrite py_max_zero in He. rewrite Hold. auto.
  - exists (update_produtos pid
              (fun p => set_estoque_preco p (py_max f0 (fadd stock qty))
                                          avg_cost (agora c)) c).
    split.
    + apply atualizar_existente with (row := row); [exact Hrow|].
      apply novo_outro; rewrite Hu; discriminate.
    + destruct (estado_apos_update c pid row (py_max f0 (fadd stock qty))
                                   avg_cost (agora c) Hrow) as [He Hp].
      rewrite py_max_zero in He. rewrite Hold. auto.
Qed.

(** C9. The engine has no branch that rejects a kind: a kind whose
    uppercase form is neither ENTRADA nor SAIDA is treated by the AJUSTE
    rule (the stock becomes [stock + qty] when that is above zero and 0
    otherwise, the cost is kept), and the only exception the engine
    raises is the 404 of a product that does not exist. *)
Theorem motor_trata_tipo_desconhecido_como_ajuste
        (c : conn) (pid : Z) (tipo : string) (qty unit_price : F) :
  upper tipo <> "ENTRADA" ->
  upper tipo <> "SAIDA" ->
  (forall row, produto_por_id c pid = Some row ->
     let stock := float_or_zero (estoque_atual row) in
     exists c',
       atualizar_preco_medio_e_estoque pid tipo qty unit_price c = (Ok tt, c') /\
       estoque_de c' pid =
         Some (if flt f0 (fadd stock qty) then fadd stock qty else f0) /\
       preco_de c' pid = Some (float_or_zero (preco_medio row)))
  /\
  (forall (t : string) (q pu : F) (e : exn) (c' : conn),
     atualizar_preco_medio_e_estoque pid t q pu c = (Raise e, c') ->
     e = HTTPException 404 "Produto não encontrado" /\
     produto_por_id c pid = None /\ c' = c).
Proof.
  intros N1 N2. split.
  - intros row Hrow stock.
    exists (update_produtos pid
              (fun p => set_estoque_preco p (py_max f0 (fadd stock qty))
                          (float_or_zero (preco_medio row)) (agora c)) c).
    split.
    + apply atualizar_existente with (row := row); [exact Hrow|].
      apply novo_outro; assumption.
    + rewrite <- py_max_zero.
      apply estado_apos_update with (row := row). exact Hrow.
  - intros t q pu e c' Hrun.
    destruct (produto_por_id c pid) as [row|] eqn:Hrow.
    + destruct (novo_total t (float_or_zero (estoque_atual row))
                           (float_or_zero (preco_medio row)) q pu)
        as (e1 & p1 & Hn).
      rewrite (atualizar_existente c pid t q pu row e1 p1 Hrow Hn) in Hrun.
      discriminate Hrun.
    + rewrite (atualizar_ausente c pid t q pu Hrow) in Hrun.
      inversion Hrun. auto.
Qed.

End Motor.

(** ** Consumption and replenishment *)
Section Consultas.
Context {F : Type} {PF : PyFloat F} {PL : PyFloatLaws F} {PS : PyStr}.

Local Abbreviation produto := (@produto F).
Local Abbreviation movimento := (@movimento F).
Local Abbreviation conn := (@conn F).

Lemma consumo_apos_update (c : conn) (pid : Z) (rate : F) :
  option_map consumo_medio_dia
             (produto_por_id (update_produtos pid (fun p => set_consumo p rate) c) pid)
  = option_map (fun _ => Some rate) (produto_por_id c pid).
Proof.
  rewrite produto_por_id_update by reflexivity. rewrite Z.eqb_refl.
  destruct (produto_por_id c pid); reflexivity.
Qed.

Lemma desde_explicito (agora dias : Z) :
  desde agora dias =
  if (Z.abs dias <=? 999999999)
     && (datetime_min <=? agora - dias * 86400000000)
     && (agora - dias * 86400000000 <=? datetime_max)
  then Ok (agora - dias * 86400000000) else Raise OverflowError.
Proof.
  unfold desde, timedelta_days.
  destruct (Z.abs dias <=? 999999999); [|reflexivity].
  cbn [andb]. reflexivity.
Qed.

Lemma desde_ok (agora dias since : Z) :
  desde agora dias = Ok since -> since = agora - dias * 86400000000.
Proof.
  rewrite desde_explicito.
  destruct (_ && _ && _); intros Hs; inversion Hs. reflexivity.
Qed.

(** What the refresh does once the start of the window is known. *)
Lemma calcular_consumo_medio_na_janela (c : conn) (pid dias since : Z) :
  desde (agora c) dias = Ok since ->
  let rate := if 0 <? dias
              then fdiv (soma_saidas c pid since) (of_int dias)
              else f0 in
  calcular_consumo_medio pid dias c =
  (Ok rate, update_produtos pid (fun p => set_consumo p rate) c).
Proof.
  intros Hs rate.
  unfold calcular_consumo_medio, bind, get, lift, modify, ret.
  rewrite Hs. unfold rate.
  destruct (0 <? dias) eqn:Hd; [|reflexivity].
  unfold truediv_int.
  assert (Hnz : (dias =? 0) = false)
    by (apply Z.eqb_neq; apply Z.ltb_lt in Hd; lia).
  rewrite Hnz. reflexivity.
Qed.

Lemma calcular_consumo_medio_fora (c : conn) (pid dias : Z) (e : exn) :
  desde (agora c) dias = Raise e ->
  calcular_consumo_medio pid dias c = (Raise e, c).
Proof.
  intros Hs. unfold calcular_consumo_medio, bind, get, lift.
  rewrite Hs. reflexivity.
Qed.

(** C7, as the code has it.  When [now - windowDays] is a date the
    runtime can represent (years 1 to 9999, at most 999999999 days away),
    the refresh divides the sum of the SAIDA quantities of the product
    dated at or after it by [windowDays], takes 0 when [windowDays <= 0],
    and writes the result to the product; the division is made only
    under the guard.  The sum is the one the database takes over the
    NUMERIC column, converted with [float].  When the date cannot be
    represented the refresh raises [OverflowError] and writes nothing. *)
Theorem consumo_medio_da_janela (c : conn) (pid dias : Z) :
  (forall since : Z,
      desde (agora c) dias = Ok since ->
      let rate := if 0 <? dias
                  then fdiv (soma_saidas c pid since) (of_int dias)
                  else f0 in
      calcular_consumo_medio pid dias c =
        (Ok rate, update_produtos pid (fun p => set_consumo p rate) c)
      /\ option_map consumo_medio_dia
                    (produto_por_id
                       (update_produtos pid (fun p => set_consumo p rate) c) pid)
         = option_map (fun _ => Some rate) (produto_por_id c pid)
      /\ (forall m : movimento,
            In m (saidas_desde c pid since) <->
            In m (movimentos c) /\ produto_id m = pid /\ tipo m = "SAIDA" /\
            agora c - dias * 86400000000 <= data_mov m)
      /\ soma_saidas c pid since =
         of_numeric
           match map (fun m => to_numeric (quantidade m))
                     (saidas_desde c pid since) with
           | [] => n0
           | q :: qs => fold_left nadd qs q
           end)
  /\ (desde (agora c) dias = Raise OverflowError ->
      calcular_consumo_medio pid dias c = (Raise OverflowError, c))
  /\ desde (agora c) dias =
     if (Z.abs dias <=? 999999999)
        && (datetime_min <=? agora c - dias * 86400000000)
        && (agora c - dias * 86400000000 <=? datetime_max)
     then Ok (agora c - dias * 86400000000) else Raise OverflowError.
Proof.
  split; [|split].
  - intros since Hs rate. split; [|split; [|split]].
    + apply calcular_consumo_medio_na_janela. exact Hs.
    + apply consumo_apos_update.
    + intros m. rewrite <- (desde_ok _ _ _ Hs). unfold saidas_desde.
      rewrite filter_In, !andb_true_iff, Z.eqb_eq, String.eqb_eq, Z.leb_le.
      tauto.
    + unfold soma_saidas, sql_sum, coalesce.
      destruct (map _ (saidas_desde c pid since)); reflexivity.
  - apply calcular_consumo_medio_fora.
  - apply desde_explicito.
Qed.

(** C6, as the code has it.  The advisor multiplies the stored
    consumption by the lead time and then by the safety factor, where a
    stored lead time of 0 is replaced by 7 and a stored safety factor of
    0 by 1.2 ([or 7], [or 1.2]); a stored consumption of 0 stays 0.  The
    three results are rounded to two decimals, and the suggestion is
    [max(0, estoque_max - stock)].  Scenario 4 gives 14.0, 16.8, 11.8. *)
Theorem sugestao_com_padroes_na_consulta
        (c : conn) (pid : Z) (row : produto) (consumo fs stock : F) (lead : Z) :
  produto_por_id c pid = Some row ->
  consumo_medio_dia row = Some consumo ->
  lead_time_dias row = Some lead ->
  fator_seguranca row = Some fs ->
  estoque_atual row = Some stock ->
  let consumo' := if fis0 consumo then f0 else consumo in
  let lead' := if lead =? 0 then 7 else lead in
  let fs' := if fis0 fs then of_Q (12 # 10) else fs in
  let e_min := fmul consumo' (of_int lead') in
  let e_max := fmul e_min fs' in
  calcular_min_max_sugestao pid c =
    (Ok (mkSugestao (fround2 e_min) (fround2 e_max)
                    (fround2 (py_max f0 (fsub e_max stock)))), c)
  /\ Cenario.cenario_4.
Proof.
  intros Hrow Hc Hl Hf He consumo' lead' fs' e_min e_max. split.
  - unfold calcular_min_max_sugestao, bind, get, lift.
    rewrite Hrow, Hc, Hl, Hf, He. reflexivity.
  - unfold Cenario.cenario_4. vm_compute. reflexivity.
Qed.

End Consultas.

(** ** The ABC curve *)
Section Abc.
Context {F : Type} {PF : PyFloat F} {PL : PyFloatLaws F} {PS : PyStr}.

Local Abbreviation produto := (@produto F).
Local Abbreviation conn := (@conn F).
Local Abbreviation item_abc := (@item_abc F).
Local Abbreviation linha_abc := (@linha_abc F).



Lemma insere_desc_hd (y x : item_abc) (l : list item_abc) :
  nao_abaixo y x -> HdRel nao_abaixo y l -> HdRel nao_abaixo y (insere_desc x l).
Proof.
  intros Hyx Hl. destruct l as [|z l]; simpl.
  - constructor. exact Hyx.
  - destruct (flt (valor x) (valor z)).
    + constructor. inversion Hl; assumption.
    + constructor. exact Hyx.
Qed.

Lemma insere_desc_sorted (x : item_abc) (l : list item_abc) :
  Sorted nao_abaixo l -> Sorted nao_abaixo (insere_desc x l).
Proof.
  induction l as [|y l IH]; intros Hs; simpl.
  - constructor; constructor.
  - destruct (flt (valor x) (valor y)) eqn:Hxy.
    + inversion Hs as [|? ? Hl Hhd]; subst. constructor.
      * apply IH. exact Hl.
      * apply insere_desc_hd; [|exact Hhd].
        unfold nao_abaixo. apply flt_asym. exact Hxy.
    + constructor; [exact Hs|]. constructor. exact Hxy.
Qed.

Lemma sort_desc_sorted (l : list item_abc) : Sorted nao_abaixo (sort_desc l).
Proof.
  induction l as [|x l IH]; simpl.
  - constructor.
  - apply insere_desc_sorted. exact IH.
Qed.






End Abc.

(** ** Posting and importing movements *)
Section Lancamentos.
Context {F : Type} {PF : PyFloat F} {PL : PyFloatLaws F} {PS : PyStr}.

Local Abbreviation conn := (@conn F).
Local Abbreviation linha := (@linha F).

Lemma py_in_false (s : string) (l : list string) :
  ~ In s l -> py_in s l = false.
Proof.
  intros Hn. unfold py_in. destruct (existsb (String.eqb s) l) eqn:E; [|reflexivity].
  apply existsb_exists in E. destruct E as (x & Hx & Heq).
  apply String.eqb_eq in Heq. subst x. contradiction.
Qed.

Lemma bind_ext {A B : Type} (m : @M F A) (k1 k2 : A -> @M F B) (c : conn) :
  (forall a c', k1 a c' = k2 a c') -> bind m k1 c = bind m k2 c.
Proof.
  intros Hk. unfold bind. destruct (m c) as [[a|e] c']; [apply Hk|reflexivity].
Qed.

(** A row whose kind is not accepted leaves the loop as if it were not
    in the sheet. *)
Lemma importar_linhas_pula (doc : option string) (row : linha) (depois : list linha) :
  py_in (upper (l_tipo row)) tipos_validos = false ->
  forall (antes : list linha) (n : Z) (c : conn),
    importar_linhas doc (antes ++ row :: depois) n c =
    importar_linhas doc (antes ++ depois) n c.
Proof.
  intros Hbad. induction antes as [|r antes IH]; intros n c.
  - cbn [importar_linhas app]. rewrite Hbad. reflexivity.
  - cbn [importar_linhas app].
    destruct (negb (py_in (upper (l_tipo r)) tipos_validos)).
    + apply IH.
    + repeat (apply bind_ext; intros ? ?). apply IH.
Qed.

(** C8. A kind that is not ENTRADA, SAIDA or AJUSTE after uppercasing is
    never recorded: posting it is refused with status 400 and the store
    is untouched; a sheet row with it is skipped, the batch giving what
    it gives without the row (alone, it processes 0 rows and changes
    nothing).  A sheet with a DEVOLUCAO row between two valid rows
    records the two valid movements. *)
Theorem tipo_invalido_nunca_e_registrado (tipo : string) :
  ~ In (upper tipo) tipos_validos ->
  (forall (pid : Z) (q : F) (pu : option F) (o d : option string)
          (dm : option Z) (c : conn),
      lancar_movimento (mkMovimentoIn pid tipo q pu o d dm) c =
      (Raise (HTTPException 400 "Tipo inválido"), c))
  /\
  (forall (doc cod : option string) (de e n u : string) (q pu : F)
          (antes depois : list linha) (c : conn),
      importar_excel doc (antes ++ mkLinha cod de e n u tipo q pu :: depois) c =
      importar_excel doc (antes ++ depois) c)
  /\
  (forall (doc cod : option string) (de e n u : string) (q pu : F) (c : conn),
      importar_excel doc [mkLinha cod de e n u tipo q pu] c = (Ok 0, c))
  /\ Cenario.cenario_6.
Proof.
  intros Hbad. apply py_in_false in Hbad.
  split; [|split; [|split]].
  - intros. unfold lancar_movimento. cbn [in_tipo]. rewrite Hbad. reflexivity.
  - intros. unfold importar_excel, begin.
    rewrite importar_linhas_pula by exact Hbad. reflexivity.
  - intros. unfold importar_excel, begin.
    cbn [importar_linhas l_tipo]. rewrite Hbad. reflexivity.
  - unfold Cenario.cenario_6. vm_compute. repeat split; reflexivity.
Qed.

(** The two clamped branches: [max(0.0, x)] is never below zero. *)
Lemma py_max_nao_negativo (x : F) : flt (py_max f0 x) f0 = false.
Proof.
  unfold py_max. destruct (flt f0 x) eqn:Hx.
  - apply flt_asym. exact Hx.
  - destruct (flt f0 f0) eqn:H0; [|reflexivity].
    rewrite (flt_asym _ _ H0) in H0. discriminate H0.
Qed.

Lemma saida_e_ajuste_nao_negativos (tipo : string) (e p q pu : F) :
  upper tipo <> "ENTRADA" ->
  exists e', novo_estoque_e_preco tipo e p q pu = Ok (e', p) /\ flt e' f0 = false.
Proof.
  intros N1. destruct (String.eqb_spec (upper tipo) "SAIDA") as [E2|N2].
  - rewrite (novo_saida _ _ _ _ _ E2). eexists. split; [reflexivity|].
    apply py_max_nao_negativo.
  - rewrite (novo_outro _ _ _ _ _ N1 N2). eexists. split; [reflexivity|].
    apply py_max_nao_negativo.
Qed.

End Lancamentos.

(** ** Stock along a sequence of movements *)
Section EstoqueNaoNegativo.
Context {F : Type} {PF : PyFloat F} {PL : PyFloatLaws F} {PA : PyFloatAdd F}
        {PS : PyStr}.

Local Abbreviation produto := (@produto F).
Local Abbreviation conn := (@conn F).

(** X2. The only way below zero is an ENTRADA whose quantity is below zero:
    from a stock that is not below zero, movements of any kind whose
    ENTRADA quantities are not below zero leave, after every prefix, a
    stock that is not below zero. *)
Lemma estoque_nao_negativo_sem_entrada_negativa
      (pid : Z) (movs : list (string * F * F)) :
  forall (c : conn) (row : produto),
    produto_por_id c pid = Some row ->
    flt (float_or_zero (estoque_atual row)) f0 = false ->
    Forall (fun m => upper (fst (fst m)) = "ENTRADA" ->
                     flt (snd (fst m)) f0 = false) movs ->
    forall k : nat,
    exists (c' : conn) (e' : F),
      aplicar_movimentos pid (firstn k movs) c = (Ok tt, c') /\
      estoque_de c' pid = Some e' /\ flt e' f0 = false.
Proof.
  induction movs as [|[[t q] pu] rest IH]; intros c row Hrow Hs Hall k.
  - rewrite firstn_nil. exists c, (float_or_zero (estoque_atual row)).
    unfold estoque_de. rewrite Hrow. auto.
  - destruct k as [|k].
    + exists c, (float_or_zero (estoque_atual row)).
      unfold estoque_de. rewrite Hrow. auto.
    + inversion Hall as [|m l Hq Hrest]; subst. simpl in Hq.
      set (s := float_or_zero (estoque_atual row)) in *.
      set (p := float_or_zero (preco_medio row)) in *.
      assert (Hstep : exists s' p',
                 novo_estoque_e_preco t s p q pu = Ok (s', p') /\
                 flt s' f0 = false).
      { destruct (String.eqb_spec (upper t) "ENTRADA") as [E|N].
        - rewrite (novo_entrada _ _ _ _ _ E). do 2 eexists.
          split; [reflexivity|]. apply fadd_nao_negativo; auto.
        - destruct (saida_e_ajuste_nao_negativos t s p q pu N) as (s' & Hn & Hs').
          exists s', p. auto. }
      destruct Hstep as (s' & p' & Hn & Hs').
      pose (c1 := update_produtos pid
                    (fun x => set_estoque_preco x s' p' (agora c)) c).
      assert (Hrun : atualizar_preco_medio_e_estoque pid t q pu c = (Ok tt, c1))
        by (apply atualizar_existente with (row := row); assumption).
      assert (Hrow1 : produto_por_id c1 pid =
                      Some (set_estoque_preco row s' p' (agora c))).
      { unfold c1. rewrite produto_por_id_update by reflexivity.
        rewrite Z.eqb_refl, Hrow. reflexivity. }
      destruct (IH c1 _ Hrow1 Hs' Hrest k) as (c' & e' & Hrun' & He & Hnn).
      exists c', e'. split; [|auto].
      cbn [firstn aplicar_movimentos]. unfold bind. rewrite Hrun. exact Hrun'.
Qed.

End EstoqueNaoNegativo.

Module Exemplos.

#[local] Existing Instance upper_py_ascii.

Import Cenario.

Lemma b64_lt_neq (x y : float) : B64.lt x y = true -> y <> x.
Proof.
  intros Hlt E. subst y.
  pose proof (flt_asym (F := float) x x Hlt) as Hn.
  cbn in Hn. congruence.
Qed.

(** [round(x, 2)] as CPython computes it: 2.675 is below the tie in
    binary64, 0.125 is a tie and goes to the even side, and
    2.0999999999999996 (0.7 times 3) becomes 2.1. *)
Example arredondamento_de_duas_casas :
  fround2 (F64 (2675 # 1000)) = F64 (267 # 100) /\
  fround2 (F64 (125 # 1000)) = F64 (12 # 100) /\
  fround2 (F64 (375 # 1000)) = F64 (38 # 100) /\
  fround2 (fmul (F64 (7 # 10)) (F64 3)) = F64 (21 # 10) /\
  fmul (F64 (7 # 10)) (F64 3) <> F64 (21 # 10).
Proof.
  split; [vm_compute; reflexivity|]. split; [vm_compute; reflexivity|].
  split; [vm_compute; reflexivity|]. split; [vm_compute; reflexivity|].
  intros E. symmetry in E. revert E. apply b64_lt_neq. vm_compute. reflexivity.
Qed.

(** Scenario 2: stock 20 at 3.00, SAIDA 5 gives stock 15 at 3.00. *)
Example cenario_2 :
  estoque_de apos_saida_5 1 = Some (F64 15) /\
  preco_de apos_saida_5 1 = Some (F64 3).
Proof. vm_compute. split; reflexivity. Qed.

(** Scenario 3: a SAIDA above the stock clamps it to 0. *)
Example cenario_3 :
  estoque_de apos_saida_5 1 = Some (F64 15) /\
  estoque_de apos_saida_100 1 = Some (F64 0).
Proof. vm_compute. split; reflexivity. Qed.

(** C3, on the code.  An ENTRADA with quantity -5 on a new product,
    whose stock is 0, leaves the stock at -5, through the engine and
    through POST /movimentos alike: the ENTRADA branch adds the quantity
    without the [max(0.0, ...)] of the other two branches. *)
Theorem entrada_negativa_deixa_estoque_negativo :
  estoque_de um_produto 1 = Some (F64 0) /\
  fst (aplicar_movimentos 1 [mov "ENTRADA" (-5) 3] um_produto) = Ok tt /\
  estoque_de apos_entrada_negativa 1 = Some (F64 (-5)) /\
  fst (lanca 1 "ENTRADA" (-5) 3 um_produto) = Ok tt /\
  estoque_de (exec (lanca 1 "ENTRADA" (-5) 3) um_produto) 1 = Some (F64 (-5)) /\
  flt (F64 (-5)) (F64 0) = true.
Proof. vm_compute. repeat split; reflexivity. Qed.

(** C7 fails for a window that leaves the calendar.  With 3000000 days
    into the future (a [windowDays] below zero) the start of the window
    would be after the year 9999: the refresh raises [OverflowError]
    instead of setting the rate to 0, and the rate stays at 2.  The same
    happens 739559 days back, a [windowDays] above zero. *)
Lemma refresh_fora_do_calendario :
  (-3000000 <=? 0) = true /\
  desde (agora consumo_2_estoque_5) (-3000000) = Raise OverflowError /\
  calcular_consumo_medio 1 (-3000000) consumo_2_estoque_5 =
    (Raise OverflowError, consumo_2_estoque_5) /\
  option_map consumo_medio_dia (produto_por_id consumo_2_estoque_5 1)
  = Some (Some (F64 2)) /\
  F64 2 <> F64 0 /\
  calcular_consumo_medio 1 739559 consumo_2_estoque_5 =
    (Raise OverflowError, consumo_2_estoque_5).
Proof.
  split; [reflexivity|]. split; [reflexivity|].
  split; [vm_compute; reflexivity|]. split; [vm_compute; reflexivity|].
  split; [apply b64_lt_neq; vm_compute; reflexivity|].
  vm_compute. reflexivity.
Qed.


(** C6 fails on a stored lead time of 0: the query replaces it by 7, so
    the minimum is 14 where consumption times the stored lead time is 0.
    And a product registered with a null lead time has no suggestion at
    all: the query raises on [int(None)]. *)
Lemma lead_time_zero_e_trocado_por_7 :
  (option_map lead_time_dias (produto_por_id lead_time_zero 1) = Some (Some 0) /\
   option_map consumo_medio_dia (produto_por_id lead_time_zero 1)
   = Some (Some (F64 2)) /\
   fround2 (fmul (F64 2) (of_int 0)) = F64 0 /\
   exists r,
     fst (calcular_min_max_sugestao 1 lead_time_zero) = Ok r /\
     estoque_min r = F64 14 /\
     estoque_min r <> fround2 (fmul (F64 2) (of_int 0)))
  /\
  (option_map lead_time_dias (produto_por_id lead_time_nulo 1) = Some None /\
   fst (calcular_min_max_sugestao 1 lead_time_nulo) = Raise TypeError).
Proof.
  split.
  - split; [vm_compute; reflexivity|].
    split; [vm_compute; reflexivity|].
    split; [vm_compute; reflexivity|].
    eexists. split; [vm_compute; reflexivity|].
    split; [vm_compute; reflexivity|].
    apply b64_lt_neq. vm_compute. reflexivity.
  - vm_compute. split; reflexivity.
Qed.

End Exemplos.

(** ** The theorems applied to the scenario stores *)
Module Instancias.

#[local] Existing Instance upper_py_ascii.

Import Cenario.

Lemma entrada_media_ponderada_movel_em_produto_novo :
  upper "entrada" = "ENTRADA" /\
  produto_por_id um_produto 1 = Some arroz_novo /\
  (exists c',
      atualizar_preco_medio_e_estoque 1 "entrada" (F64 10) (F64 2) um_produto
      = (Ok tt, c') /\
      estoque_de c' 1 = Some (F64 10) /\ preco_de c' 1 = Some (F64 2)).
Proof.
  split; [reflexivity|]. split; [reflexivity|].
  exact (proj1 (entrada_media_ponderada_movel
                  um_produto 1 "entrada" (F64 10) (F64 2) arroz_novo
                  eq_refl eq_refl)).
Defined.

Lemma saida_e_ajuste_sobre_estoque_20 :
  produto_por_id apos_entrada_2 1 = Some arroz_20_3 /\
  upper "saida" = "SAIDA" /\
  upper "ajuste" = "AJUSTE" /\
  (exists c',
      atualizar_preco_medio_e_estoque 1 "saida" (F64 5) (F64 0) apos_entrada_2
      = (Ok tt, c') /\
      estoque_de c' 1 = Some (F64 15) /\ preco_de c' 1 = Some (F64 3) /\
      preco_de c' 1 = preco_de apos_entrada_2 1) /\
  (exists c',
      atualizar_preco_medio_e_estoque 1 "saida" (F64 100) (F64 0) apos_entrada_2
      = (Ok tt, c') /\
      estoque_de c' 1 = Some (F64 0) /\ preco_de c' 1 = Some (F64 3) /\
      preco_de c' 1 = preco_de apos_entrada_2 1) /\
  (exists c',
      atualizar_preco_medio_e_estoque 1 "ajuste" (F64 (-30)) (F64 0) apos_entrada_2
      = (Ok tt, c') /\
      estoque_de c' 1 = Some (F64 0) /\ preco_de c' 1 = Some (F64 3) /\
      preco_de c' 1 = preco_de apos_entrada_2 1) /\
  (exists c',
      atualizar_preco_medio_e_estoque 1 "ajuste" (F64 3) (F64 0) apos_entrada_2
      = (Ok tt, c') /\
      estoque_de c' 1 = Some (F64 23) /\ preco_de c' 1 = Some (F64 3) /\
      preco_de c' 1 = preco_de apos_entrada_2 1).
Proof.
  split; [reflexivity|]. split; [reflexivity|]. split; [reflexivity|].
  split; [|split; [|split]].
  - exact (proj1 (saida_e_ajuste_mantem_preco_medio
                    apos_entrada_2 1 "saida" (F64 5) (F64 0) arroz_20_3 eq_refl)
                 eq_refl).
  - exact (proj1 (saida_e_ajuste_mantem_preco_medio
                    apos_entrada_2 1 "saida" (F64 100) (F64 0) arroz_20_3 eq_refl)
                 eq_refl).
  - exact (proj2 (saida_e_ajuste_mantem_preco_medio
                    apos_entrada_2 1 "ajuste" (F64 (-30)) (F64 0) arroz_20_3 eq_refl)
                 eq_refl).
  - exact (proj2 (saida_e_ajuste_mantem_preco_medio
                    apos_entrada_2 1 "ajuste" (F64 3) (F64 0) arroz_20_3 eq_refl)
                 eq_refl).
Defined.

Lemma devolucao_no_motor_e_ajuste :
  upper "DEVOLUCAO" <> "ENTRADA" /\
  upper "DEVOLUCAO" <> "SAIDA" /\
  produto_por_id um_produto 1 = Some arroz_novo /\
  produto_por_id apos_entrada_2 1 = Some arroz_20_3 /\
  (exists c',
      atualizar_preco_medio_e_estoque 1 "DEVOLUCAO" (F64 3) (F64 0) um_produto
      = (Ok tt, c') /\
      estoque_de c' 1 = Some (F64 3) /\ preco_de c' 1 = Some (F64 0)) /\
  (exists c',
      atualizar_preco_medio_e_estoque 1 "DEVOLUCAO" (F64 (-3)) (F64 0) um_produto
      = (Ok tt, c') /\
      estoque_de c' 1 = Some (F64 0) /\ preco_de c' 1 = Some (F64 0)) /\
  (exists c',
      atualizar_preco_medio_e_estoque 1 "DEVOLUCAO" (F64 (-25)) (F64 9)
                                      apos_entrada_2
      = (Ok tt, c') /\
      estoque_de c' 1 = Some (F64 0) /\ preco_de c' 1 = Some (F64 3)) /\
  (exists c',
      atualizar_preco_medio_e_estoque 1 "DEVOLUCAO" (F64 (-5)) (F64 9)
                                      apos_entrada_2
      = (Ok tt, c') /\
      estoque_de c' 1 = Some (F64 15) /\ preco_de c' 1 = Some (F64 3)).
Proof.
  assert (N1 : upper "DEVOLUCAO" <> "ENTRADA") by (vm_compute; discriminate).
  assert (N2 : upper "DEVOLUCAO" <> "SAIDA") by (vm_compute; discriminate).
  split; [exact N1|]. split; [exact N2|].
  split; [reflexivity|]. split; [reflexivity|].
  split; [|split; [|split]].
  - exact (proj1 (motor_trata_tipo_desconhecido_como_ajuste
                    um_produto 1 "DEVOLUCAO" (F64 3) (F64 0) N1 N2)
                 arroz_novo eq_refl).
  - exact (proj1 (motor_trata_tipo_desconhecido_como_ajuste
                    um_produto 1 "DEVOLUCAO" (F64 (-3)) (F64 0) N1 N2)
                 arroz_novo eq_refl).
  - exact (proj1 (motor_trata_tipo_desconhecido_como_ajuste
                    apos_entrada_2 1 "DEVOLUCAO" (F64 (-25)) (F64 9) N1 N2)
                 arroz_20_3 eq_refl).
  - exact (proj1 (motor_trata_tipo_desconhecido_como_ajuste
                    apos_entrada_2 1 "DEVOLUCAO" (F64 (-5)) (F64 9) N1 N2)
                 arroz_20_3 eq_refl).
Defined.

Lemma consumo_medio_de_60_saidas_em_30_dias :
  desde (agora consumo_2_estoque_5) 30 = Ok 1759622400000000 /\
  desde (agora consumo_2_estoque_5) 739558 = Ok datetime_min /\
  desde (agora consumo_2_estoque_5) (-2912500) = Ok 253402214400000000 /\
  desde (agora consumo_2_estoque_5) (-2912501) = Raise OverflowError /\
  calcular_consumo_medio 1 30 consumo_2_estoque_5 =
    (Ok (F64 2),
     update_produtos 1 (fun p => set_consumo p (F64 2)) consumo_2_estoque_5) /\
  calcular_consumo_medio 1 0 consumo_2_estoque_5 =
    (Ok (F64 0),
     update_produtos 1 (fun p => set_consumo p (F64 0)) consumo_2_estoque_5) /\
  calcular_consumo_medio 1 (-7) consumo_2_estoque_5 =
    (Ok (F64 0),
     update_produtos 1 (fun p => set_consumo p (F64 0)) consumo_2_estoque_5) /\
  calcular_consumo_medio 1 739559 consumo_2_estoque_5 =
    (Raise OverflowError, consumo_2_estoque_5) /\
  map quantidade (saidas_desde Cenario2.saidas_decimais 1 1759622400000000)
  = [F64 (1 # 10); F64 (2 # 10); F64 (15 # 100000)] /\
  soma_saidas Cenario2.saidas_decimais 1 1759622400000000 = F64 (3002 # 10000) /\
  calcular_consumo_medio 1 30 Cenario2.saidas_decimais =
    (Ok (fdiv (F64 (3002 # 10000)) (F64 30)),
     update_produtos 1 (fun p => set_consumo p (fdiv (F64 (3002 # 10000)) (F64 30)))
                     Cenario2.saidas_decimais).
Proof.
  split; [reflexivity|]. split; [reflexivity|].
  split; [reflexivity|]. split; [reflexivity|].
  split; [|split; [|split; [|split; [|split; [|split]]]]].
  - exact (proj1 (proj1 (consumo_medio_da_janela consumo_2_estoque_5 1 30)
                        1759622400000000 eq_refl)).
  - exact (proj1 (proj1 (consumo_medio_da_janela consumo_2_estoque_5 1 0)
                        1762214400000000 eq_refl)).
  - exact (proj1 (proj1 (consumo_medio_da_janela consumo_2_estoque_5 1 (-7))
                        1762819200000000 eq_refl)).
  - exact (proj1 (proj2 (consumo_medio_da_janela consumo_2_estoque_5 1 739559))
                 eq_refl).
  - vm_compute. reflexivity.
  - vm_compute. reflexivity.
  - assert (Hs : soma_saidas Cenario2.saidas_decimais 1 1759622400000000
                 = F64 (3002 # 10000)) by (vm_compute; reflexivity).
    pose proof (proj1 (proj1 (consumo_medio_da_janela Cenario2.saidas_decimais 1 30)
                             1759622400000000 eq_refl)) as Hrun.
    cbv zeta in Hrun. change (0 <? 30) with true in Hrun. cbv iota in Hrun.
    rewrite Hs in Hrun. exact Hrun.
Defined.


Lemma sugestao_do_cenario_4 :
  produto_por_id consumo_2_estoque_5 1 = Some feijao_2_5 /\
  calcular_min_max_sugestao 1 consumo_2_estoque_5 =
  (Ok (mkSugestao (F64 14) (F64 (168 # 10)) (F64 (118 # 10))),
   consumo_2_estoque_5).
Proof.
  split; [reflexivity|].
  exact (proj1 (sugestao_com_padroes_na_consulta
                  consumo_2_estoque_5 1 feijao_2_5 (F64 2) (F64 (12 # 10))
                  (F64 5) 7 eq_refl eq_refl eq_refl eq_refl eq_refl)).
Defined.


Lemma devolucao_nunca_e_registrada :
  ~ In (upper "DEVOLUCAO") tipos_validos /\
  lancar_movimento (mkMovimentoIn 1 "DEVOLUCAO" (F64 3) None None None None)
                   um_produto
  = (Raise (HTTPException 400 "Tipo inválido"), um_produto) /\
  importar_excel None [linha_de "A1" "DEVOLUCAO" 3 2] um_produto = (Ok 0, um_produto).
Proof.
  assert (Hn : ~ In (upper "DEVOLUCAO") tipos_validos).
  { intros [H|[H|[H|[]]]]; vm_compute in H; discriminate H. }
  split; [exact Hn|].
  destruct (tipo_invalido_nunca_e_registrado (F := float) "DEVOLUCAO" Hn)
    as (Hlanca & _ & Hlinha & _).
  split.
  - exact (Hlanca 1 (F64 3) None None None None um_produto).
  - exact (Hlinha None (Some "A1") "item" "None" "None" "UN" (F64 3) (F64 2)
                  um_produto).
Defined.

End Instancias.

(** * Further properties of the code *)

(** ** What each write touches *)
Section Quadro.
Context {F : Type} {PF : PyFloat F} {PS : PyStr}.

Local Abbreviation produto := (@produto F).
Local Abbreviation conn := (@conn F).

Lemma update_produtos_ids (c : conn) (id : Z) (f : produto -> produto) :
  (forall p, prod_id (f p) = prod_id p) ->
  map prod_id (produtos (update_produtos id f c)) = map prod_id (produtos c).
Proof.
  intros Hf. unfold update_produtos. cbn [produtos]. rewrite map_map.
  apply map_ext. intros p. destruct (prod_id p =? id); [apply Hf|reflexivity].
Qed.

Lemma update_produtos_codigos (c : conn) (id : Z) (f : produto -> produto) :
  (forall p, codigo (f p) = codigo p) ->
  map codigo (produtos (update_produtos id f c)) = map codigo (produtos c).
Proof.
  intros Hf. unfold update_produtos. cbn [produtos]. rewrite map_map.
  apply map_ext. intros p. destruct (prod_id p =? id); [apply Hf|reflexivity].
Qed.

Lemma find_map_outro (l : list produto) (id id' : Z) (f : produto -> produto) :
  (forall p, prod_id (f p) = prod_id p) ->
  id' <> id ->
  find (fun p => prod_id p =? id')
       (map (fun p => if prod_id p =? id then f p else p) l) =
  find (fun p => prod_id p =? id') l.
Proof.
  intros Hf Hne. induction l as [|p l IH]; simpl; [reflexivity|].
  destruct (prod_id p =? id) eqn:Ep.
  - rewrite Hf. apply Z.eqb_eq in Ep.
    assert (Hn : (prod_id p =? id') = false) by (apply Z.eqb_neq; congruence).
    rewrite Hn. exact IH.
  - destruct (prod_id p =? id'); [reflexivity|exact IH].
Qed.

Lemma produto_por_id_update_outro (c : conn) (id id' : Z) (f : produto -> produto) :
  (forall p, prod_id (f p) = prod_id p) ->
  id' <> id ->
  produto_por_id (update_produtos id f c) id' = produto_por_id c id'.
Proof. intros Hf Hne. unfold produto_por_id, update_produtos. cbn [produtos]. now apply find_map_outro. Qed.

Lemma produto_por_id_update_mesmo (c : conn) (id : Z) (f : produto -> produto) :
  (forall p, prod_id (f p) = prod_id p) ->
  produto_por_id (update_produtos id f c) id = option_map f (produto_por_id c id).
Proof.
  intros Hf. unfold produto_por_id, update_produtos. cbn [produtos].
  induction (produtos c) as [|p l IH]; simpl; [reflexivity|].
  destruct (prod_id p =? id) eqn:Ep.
  - rewrite Hf, Ep. reflexivity.
  - rewrite Ep. exact IH.
Qed.

(** An UPDATE that matches no row changes nothing. *)
Lemma update_produtos_ausente (c : conn) (id : Z) (f : produto -> produto) :
  produto_por_id c id = None -> update_produtos id f c = c.
Proof.
  intros Hnone. destruct c as [ps ms s1 s2 t]. unfold update_produtos, produto_por_id in *.
  cbn [produtos movimentos produtos_id_seq movimentos_id_seq agora] in *.
  f_equal. induction ps as [|p l IH]; simpl in *; [reflexivity|].
  destruct (prod_id p =? id); [discriminate|]. f_equal. apply IH. exact Hnone.
Qed.

(** The two outcomes of the refresh. *)
Lemma calcular_consumo_medio_resultado (c : conn) (pid dias : Z) :
  (exists rate : F,
      calcular_consumo_medio pid dias c =
      (Ok rate, update_produtos pid (fun p => set_consumo p rate) c))
  \/ (exists e : exn, calcular_consumo_medio pid dias c = (Raise e, c)).
Proof.
  destruct (desde (agora c) dias) as [since|e] eqn:Hs.
  - left. eexists. apply calcular_consumo_medio_na_janela. exact Hs.
  - right. exists e. apply calcular_consumo_medio_fora. exact Hs.
Qed.

(** X6. The refresh of the consumption rate writes one column of one
    row.  Whatever it returns or raises, for a product that exists or
    not, the journal and the sequences are untouched, no product appears
    or disappears, the stock and the average cost of every product stay
    as they were and every other product is unchanged; when it raises, or
    when the product does not exist, the store is unchanged. *)
Theorem refresh_de_consumo_preserva_a_valoracao
        (c c' : conn) (pid dias : Z) (r : result F) :
  calcular_consumo_medio pid dias c = (r, c') ->
  movimentos c' = movimentos c /\
  produtos_id_seq c' = produtos_id_seq c /\
  movimentos_id_seq c' = movimentos_id_seq c /\
  map prod_id (produtos c') = map prod_id (produtos c) /\
  (forall id, estoque_de c' id = estoque_de c id /\
              preco_de c' id = preco_de c id) /\
  (forall id, id <> pid -> produto_por_id c' id = produto_por_id c id) /\
  (produto_por_id c pid = None -> c' = c) /\
  (forall e, r = Raise e -> c' = c).
Proof.
  intros Hrun.
  destruct (calcular_consumo_medio_resultado c pid dias) as [[rate Hok]|[e He]].
  - rewrite Hok in Hrun. inversion Hrun; subst r c'; clear Hrun.
    split; [reflexivity|]. split; [reflexivity|]. split; [reflexivity|].
    split; [apply update_produtos_ids; reflexivity|].
    split; [|split; [|split]].
    + intros id. unfold estoque_de, preco_de.
      destruct (Z.eq_dec id pid) as [->|Hne].
      * rewrite produto_por_id_update_mesmo by reflexivity.
        destruct (produto_por_id c pid); split; reflexivity.
      * rewrite produto_por_id_update_outro by (reflexivity || exact Hne).
        split; reflexivity.
    + intros id Hne. apply produto_por_id_update_outro; [reflexivity|exact Hne].
    + intros Hnone. apply update_produtos_ausente. exact Hnone.
    + intros e He. discriminate He.
  - rewrite He in Hrun. inversion Hrun; subst r c'; clear Hrun.
    repeat split; reflexivity.
Qed.

End Quadro.

Section QuadroMotor.
Context {F : Type} {PF : PyFloat F} {PL : PyFloatLaws F} {PS : PyStr}.

Local Abbreviation produto := (@produto F).
Local Abbreviation conn := (@conn F).

(** What the engine does, whatever the kind. *)
Lemma atualizar_resultado (c : conn) (pid : Z) (t : string) (q pu : F) :
  match produto_por_id c pid with
  | Some row =>
      exists e' p',
        novo_estoque_e_preco t (float_or_zero (estoque_atual row))
                             (float_or_zero (preco_medio row)) q pu = Ok (e', p') /\
        atualizar_preco_medio_e_estoque pid t q pu c =
        (Ok tt, update_produtos pid
                  (fun p => set_estoque_preco p e' p' (agora c)) c)
  | None =>
      atualizar_preco_medio_e_estoque pid t q pu c =
      (Raise (HTTPException 404 "Produto não encontrado"), c)
  end.
Proof.
  destruct (produto_por_id c pid) as [row|] eqn:Hrow.
  - destruct (novo_total t (float_or_zero (estoque_atual row))
                         (float_or_zero (preco_medio row)) q pu) as (e' & p' & Hn).
    exists e', p'. split; [exact Hn|].
    apply atualizar_existente with (row := row); assumption.
  - apply atualizar_ausente. exact Hrow.
Qed.

(** X1. The engine writes three columns of one row.  Whatever the outcome,
    the journal, the sequences and every other product are untouched and
    no product appears or disappears; when it succeeds, the row addressed
    keeps its code, description, consumption rate, lead time, safety
    factor and creation instant, and its update instant is now. *)
Theorem motor_so_altera_o_produto_enderecado
        (c c' : conn) (pid : Z) (t : string) (q pu : F) (r : result unit) :
  atualizar_preco_medio_e_estoque pid t q pu c = (r, c') ->
  movimentos c' = movimentos c /\
  produtos_id_seq c' = produtos_id_seq c /\
  movimentos_id_seq c' = movimentos_id_seq c /\
  map prod_id (produtos c') = map prod_id (produtos c) /\
  (forall id, id <> pid -> produto_por_id c' id = produto_por_id c id) /\
  (r = Ok tt ->
   exists row row',
     produto_por_id c pid = Some row /\ produto_por_id c' pid = Some row' /\
     codigo row' = codigo row /\ ean row' = ean row /\
     descricao row' = descricao row /\ ncm row' = ncm row /\
     unidade row' = unidade row /\
     consumo_medio_dia row' = consumo_medio_dia row /\
     lead_time_dias row' = lead_time_dias row /\
     fator_seguranca row' = fator_seguranca row /\
     criado_em row' = criado_em row /\ atualizado_em row' = agora c) /\
  (r <> Ok tt -> c' = c /\ produto_por_id c pid = None).
Proof.
  intros Hrun. pose proof (atualizar_resultado c pid t q pu) as Hres.
  destruct (produto_por_id c pid) as [row|] eqn:Hrow.
  - destruct Hres as (e' & p' & _ & Hok). rewrite Hok in Hrun.
    inversion Hrun; subst r c'; clear Hrun.
    split; [reflexivity|]. split; [reflexivity|]. split; [reflexivity|].
    split; [apply update_produtos_ids; reflexivity|].
    split; [intros id Hne; apply produto_por_id_update_outro;
            [reflexivity|exact Hne]|].
    split.
    + intros _. exists row, (set_estoque_preco row e' p' (agora c)).
      split; [reflexivity|].
      split; [rewrite produto_por_id_update_mesmo by reflexivity;
              rewrite Hrow; reflexivity|].
      repeat split; reflexivity.
    + intros Hne. contradiction Hne. reflexivity.
  - rewrite Hres in Hrun. inversion Hrun; subst r c'; clear Hrun.
    repeat split; try reflexivity.
    intros Hok. discriminate Hok.
Qed.

End QuadroMotor.

(** ** Posting a movement *)
Section Lancar.
Context {F : Type} {PF : PyFloat F} {PL : PyFloatLaws F} {PS : PyStr}.

Local Abbreviation produto := (@produto F).
Local Abbreviation conn := (@conn F).

Lemma py_in_true (s : string) (l : list string) : In s l -> py_in s l = true.
Proof.
  intros Hin. unfold py_in. apply existsb_exists. exists s.
  split; [exact Hin|apply String.eqb_refl].
Qed.

Lemma py_in_In (s : string) (l : list string) : py_in s l = true -> In s l.
Proof.
  unfold py_in. intros Hex. apply existsb_exists in Hex.
  destruct Hex as (x & Hx & Heq). apply String.eqb_eq in Heq. subst x. exact Hx.
Qed.

Lemma begin_atomico {A : Type} (body : @M F A) (c c' : conn) (e : exn) :
  begin body c = (Raise e, c') ->
  produtos c' = produtos c /\ movimentos c' = movimentos c.
Proof.
  unfold begin. destruct (body c) as [[a|e0] c0]; intros Hrun.
  - discriminate Hrun.
  - inversion Hrun; subst. split; reflexivity.
Qed.

(** X12. A posting that completes was of a valid kind and for a product
    that exists, and it has appended exactly one movement to the journal:
    the next id of the sequence, that product, the kind in upper case.
    No product appears or disappears and no other product changes. *)
Theorem lancamento_valido_registra_e_atualiza
        (c c' : conn) (m : @MovimentoIn F) :
  lancar_movimento m c = (Ok tt, c') ->
  In (upper (in_tipo m)) tipos_validos /\
  (exists row, produto_por_id c (in_produto_id m) = Some row) /\
  (exists novo : @movimento F,
      movimentos c' = (movimentos c ++ [novo])%list /\
      mov_id novo = movimentos_id_seq c /\
      produto_id novo = in_produto_id m /\
      tipo novo = upper (in_tipo m)) /\
  movimentos_id_seq c' = movimentos_id_seq c + 1 /\
  produtos_id_seq c' = produtos_id_seq c /\
  map prod_id (produtos c') = map prod_id (produtos c) /\
  (forall id, id <> in_produto_id m ->
              produto_por_id c' id = produto_por_id c id).
Proof.
  intros Hrun. unfold lancar_movimento in Hrun.
  destruct (py_in (upper (in_tipo m)) tipos_validos) eqn:Hval;
    cbn [negb] in Hrun; [|discriminate Hrun].
  set (pid := in_produto_id m) in *.
  destruct (produto_por_id c pid) as [row|] eqn:Hrow.
  2:{ unfold begin, bind, get in Hrun. unfold insert_movimento at 1 in Hrun.
      rewrite Hrow in Hrun. discriminate Hrun. }
  set (novo := mkMovimento (movimentos_id_seq c) pid (upper (in_tipo m))
                 (in_quantidade m) (Some (preco_or_0 (in_preco_unit m)))
                 (in_origem m) (in_documento m)
                 (match in_data_mov m with Some d => d | None => agora c end)).
  set (c1 := mkConn (produtos c) (movimentos c ++ [novo])%list (produtos_id_seq c)
                    (movimentos_id_seq c + 1) (agora c)).
  assert (Hrow1 : produto_por_id c1 pid = Some row) by exact Hrow.
  pose proof (atualizar_resultado c1 pid (in_tipo m) (in_quantidade m)
                                  (preco_or_0 (in_preco_unit m))) as Hres.
  rewrite Hrow1 in Hres. destruct Hres as (e' & p' & Hn & Hmotor).
  set (c2 := update_produtos pid (fun p => set_estoque_preco p e' p' (agora c1)) c1)
    in *.
  unfold begin, bind, get in Hrun. unfold insert_movimento at 1 in Hrun.
  rewrite Hrow in Hrun. fold novo in Hrun. fold c1 in Hrun.
  rewrite Hmotor in Hrun.
  destruct (calcular_consumo_medio_resultado c2 pid 30) as [[rate Hok]|[e He]].
  2:{ rewrite He in Hrun. discriminate Hrun. }
  rewrite Hok in Hrun. unfold ret in Hrun. inversion Hrun; subst c'; clear Hrun.
  split; [apply py_in_In; exact Hval|].
  split; [exists row; reflexivity|].
  split; [exists novo; repeat split; reflexivity|].
  split; [reflexivity|]. split; [reflexivity|].
  split.
  - rewrite update_produtos_ids by reflexivity.
    unfold c2. rewrite update_produtos_ids by reflexivity. reflexivity.
  - intros id Hne. unfold c2.
    rewrite !produto_por_id_update_outro by (reflexivity || exact Hne).
    reflexivity.
Qed.

(** X13. Posting to a product that does not exist records nothing.  The
    INSERT into the journal comes first and violates the foreign key, so
    the request fails there (the 404 of the engine is never reached);
    both tables are as before, and one value of the movement sequence is
    spent. *)
Theorem lancamento_para_produto_inexistente
        (c : conn) (m : @MovimentoIn F) :
  In (upper (in_tipo m)) tipos_validos ->
  produto_por_id c (in_produto_id m) = None ->
  exists c' : conn,
    lancar_movimento m c = (Raise IntegrityError, c') /\
    produtos c' = produtos c /\ movimentos c' = movimentos c /\
    produtos_id_seq c' = produtos_id_seq c /\
    movimentos_id_seq c' = movimentos_id_seq c + 1.
Proof.
  intros Hval Hnone. apply py_in_true in Hval.
  eexists. split.
  - unfold lancar_movimento. rewrite Hval. cbn [negb].
    unfold begin, bind, get. unfold insert_movimento at 1.
    rewrite Hnone. reflexivity.
  - repeat split; reflexivity.
Qed.

End Lancar.

(** ** The two imports *)
Section Importacoes.
Context {F : Type} {PF : PyFloat F} {PL : PyFloatLaws F} {PS : PyStr}.

Local Abbreviation produto := (@produto F).
Local Abbreviation movimento := (@movimento F).
Local Abbreviation conn := (@conn F).

Lemma produto_por_id_de_membro (c : conn) (r : produto) :
  In r (produtos c) -> exists r', produto_por_id c (prod_id r) = Some r'.
Proof.
  intros Hin. unfold produto_por_id.
  destruct (find (fun p => prod_id p =? prod_id r) (produtos c)) as [r'|] eqn:E.
  - exists r'. reflexivity.
  - exfalso. pose proof (find_none _ _ E r Hin) as Hn. cbn in Hn.
    rewrite Z.eqb_refl in Hn. discriminate Hn.
Qed.

Lemma produto_por_codigo_membro (c : conn) (cod : option string) (r : produto) :
  produto_por_codigo c cod = Some r -> In r (produtos c).
Proof.
  unfold produto_por_codigo. destruct cod as [s|]; [|discriminate].
  intros Hf. apply find_some in Hf. tauto.
Qed.

(** The three steps that record one movement, for a product that exists:
    either they go through, with one row more in the journal and the ids
    and codes of the product table kept, or the refresh raises. *)
Lemma registra_um_movimento {A : Type} (c : conn) (pid : Z) (t t' : string)
      (q pu : F) (o doc : option string) (k : @M F A) (row : produto) :
  produto_por_id c pid = Some row ->
  (exists c' : conn,
      (c0 <- get ;;
       insert_movimento pid t q (Some pu) o doc (agora c0) ;;;
       atualizar_preco_medio_e_estoque pid t' q pu ;;;
       calcular_consumo_medio pid 30 ;;; k) c = k c' /\
      movimentos c' =
        (movimentos c ++
         [mkMovimento (movimentos_id_seq c) pid t q (Some pu) o doc (agora c)])%list /\
      map prod_id (produtos c') = map prod_id (produtos c) /\
      map codigo (produtos c') = map codigo (produtos c) /\
      produtos_id_seq c' = produtos_id_seq c)
  \/
  (exists (e : exn) (c' : conn),
      (c0 <- get ;;
       insert_movimento pid t q (Some pu) o doc (agora c0) ;;;
       atualizar_preco_medio_e_estoque pid t' q pu ;;;
       calcular_consumo_medio pid 30 ;;; k) c = (Raise e, c')).
Proof.
  intros Hrow.
  set (novo := mkMovimento (movimentos_id_seq c) pid t q (Some pu) o doc (agora c)).
  set (c1 := mkConn (produtos c) (movimentos c ++ [novo])%list (produtos_id_seq c)
                    (movimentos_id_seq c + 1) (agora c)).
  assert (Hrow1 : produto_por_id c1 pid = Some row) by exact Hrow.
  pose proof (atualizar_resultado c1 pid t' q pu) as Hres.
  rewrite Hrow1 in Hres. destruct Hres as (e' & p' & _ & Hmotor).
  set (c2 := update_produtos pid (fun p => set_estoque_preco p e' p' (agora c1)) c1)
    in *.
  assert (Hpre : forall B (k' : @M F B),
             (c0 <- get ;;
              insert_movimento pid t q (Some pu) o doc (agora c0) ;;;
              atualizar_preco_medio_e_estoque pid t' q pu ;;; k') c = k' c2).
  { intros B k'. unfold bind at 1. unfold get. unfold bind at 1.
    unfold insert_movimento at 1. rewrite Hrow. fold novo. fold c1.
    unfold bind at 1. rewrite Hmotor. reflexivity. }
  rewrite Hpre.
  destruct (calcular_consumo_medio_resultado c2 pid 30) as [[rate Hok]|[e He]].
  - left. exists (update_produtos pid (fun p => set_consumo p rate) c2).
    split; [|split; [reflexivity|split; [|split; [|reflexivity]]]].
    + unfold bind at 1. rewrite Hok. reflexivity.
    + rewrite update_produtos_ids by reflexivity.
      unfold c2. rewrite update_produtos_ids by reflexivity. reflexivity.
    + rewrite update_produtos_codigos by reflexivity.
      unfold c2. rewrite update_produtos_codigos by reflexivity. reflexivity.
  - right. exists e, c2. unfold bind at 1. rewrite He. reflexivity.
Qed.

(** The upsert of the invoice import always succeeds and returns the id
    of a product that exists. *)
Lemma upsert_nfe_total (it : @item_nfe F) (c : conn) :
  exists (pid : Z) (c1 : conn) (row : produto),
    upsert_nfe it c = (Ok pid, c1) /\
    produto_por_id c1 pid = Some row /\
    movimentos c1 = movimentos c /\
    movimentos_id_seq c1 = movimentos_id_seq c /\
    agora c1 = agora c.
Proof.
  unfold upsert_nfe, bind, get.
  destruct (produto_por_codigo c (x_codigo it)) as [r|] eqn:Hcod.
  - apply produto_por_codigo_membro in Hcod.
    destruct (produto_por_id_de_membro c r Hcod) as (r' & Hr').
    eexists. eexists. eexists. split; [reflexivity|].
    split; [|repeat split; reflexivity].
    rewrite produto_por_id_update_mesmo by reflexivity.
    rewrite Hr'. reflexivity.
  - unfold insert_produto. rewrite Hcod.
    set (p := mkProduto (produtos_id_seq c) (x_codigo it) (x_ean it) (x_desc it)
                        (x_ncm it) (Some (x_unidade it)) (Some f0) (Some f0)
                        (Some f0) (Some 7) (Some (of_Q (12 # 10)))
                        (agora c) (agora c)).
    assert (Hin : In p (produtos c ++ [p])) by (apply in_or_app; right; left; reflexivity).
    destruct (produto_por_id_de_membro
                (mkConn (produtos c ++ [p]) (movimentos c) (produtos_id_seq c + 1)
                        (movimentos_id_seq c) (agora c)) p Hin) as (r' & Hr').
    eexists. eexists. exists r'. split; [reflexivity|].
    split; [exact Hr'|repeat split; reflexivity].
Qed.

(** Whenever the loop over the items ends normally, it has counted the
    [det] elements that have a [prod] and appended one movement for
    each. *)
Lemma importar_itens_diario (doc : option string)
      (itens : list (option (@item_nfe F))) :
  forall (n n' : Z) (c c' : conn),
    importar_itens doc itens n c = (Ok n', c') ->
    n' = n + Z.of_nat (List.length (filter (fun o => match o with
                                                     | Some _ => true
                                                     | None => false
                                                     end) itens)) /\
    exists novos : list movimento,
      movimentos c' = (movimentos c ++ novos)%list /\
      List.length novos = List.length (filter (fun o => match o with
                                                        | Some _ => true
                                                        | None => false
                                                        end) itens) /\
      Forall (fun m => tipo m = "ENTRADA" /\ origem m = Some "XML") novos.
Proof.
  induction itens as [|[it|] rest IH]; intros n n' c c' Hrun.
  - cbn in Hrun. inversion Hrun; subst. split; [cbn; lia|].
    exists []. rewrite app_nil_r. auto.
  - cbn [importar_itens filter] in *. unfold bind at 1 in Hrun.
    destruct (upsert_nfe_total it c) as (pid & c1 & row & Hup & Hrow & Hm & _).
    rewrite Hup in Hrun.
    destruct (registra_um_movimento c1 pid "ENTRADA" "ENTRADA" (x_q it) (x_v it)
                (Some "XML") doc (importar_itens doc rest (n + 1)) row Hrow)
      as [(c2 & Hstep & Hm2 & _)|(e & c2 & Hfail)].
    + rewrite Hstep in Hrun.
      destruct (IH _ _ _ _ Hrun) as (Hn & novos & Hm' & Hlen & Hall).
      split; [cbn [List.length]; lia|].
      eexists. split; [|split].
      * rewrite Hm', Hm2, Hm, <- app_assoc. reflexivity.
      * cbn [app List.length]. rewrite Hlen. reflexivity.
      * cbn [app]. constructor; [cbn; auto|exact Hall].
    + rewrite Hfail in Hrun. discriminate Hrun.
  - cbn [importar_itens filter] in *. apply IH. exact Hrun.
Qed.

(** X16. An invoice import that completes reports exactly the number of
    [det] elements that have a [prod], and has appended that many
    movements to the journal and no other: the earlier movements are kept
    in place, and every new one is an ENTRADA of origin XML.  A [det]
    without [prod] is skipped and not counted. *)
Theorem importar_xml_nfe_conta_o_que_registra
        (doc : option string) (itens : list (option (@item_nfe F)))
        (c c' : conn) (n : Z) :
  importar_xml_nfe doc itens c = (Ok n, c') ->
  n = Z.of_nat (List.length (filter (fun o => match o with
                                              | Some _ => true
                                              | None => false
                                              end) itens)) /\
  exists novos : list movimento,
    movimentos c' = (movimentos c ++ novos)%list /\
    Z.of_nat (List.length novos) = n /\
    Forall (fun m => tipo m = "ENTRADA" /\ origem m = Some "XML") novos.
Proof.
  unfold importar_xml_nfe, begin.
  destruct (importar_itens doc itens 0 c) as [[n0|e] c0] eqn:Hrun; [|discriminate].
  intros Heq. inversion Heq; subst n0 c0; clear Heq.
  destruct (importar_itens_diario doc itens _ _ _ _ Hrun)
    as (Hn & novos & Hm & Hlen & Hall).
  split; [lia|]. exists novos. split; [exact Hm|]. split; [lia|exact Hall].
Qed.

End Importacoes.

(** ** The sheet import, row by row *)
Section Planilha.
Context {F : Type} {PF : PyFloat F} {PL : PyFloatLaws F} {PS : PyStr}.

Local Abbreviation produto := (@produto F).
Local Abbreviation movimento := (@movimento F).
Local Abbreviation conn := (@conn F).
Local Abbreviation linha := (@linha F).

(** The upsert of the sheet import never touches the journal. *)
Lemma upsert_por_codigo_diario (row : linha) (c c1 : conn) (r : result Z) :
  upsert_por_codigo row c = (r, c1) -> movimentos c1 = movimentos c.
Proof.
  unfold upsert_por_codigo, insert_da_linha, insert_produto, bind, get, modify, ret.
  destruct (if match l_codigo row with
               | Some s => negb (s =? "")%string
               | None => false
               end
            then produto_por_codigo c (l_codigo row) else None) as [r0|].
  - destruct (prod_id r0 =? 0).
    + cbn [produtos]. match goal with
      | |- context [produto_por_codigo ?c0 ?k] =>
          destruct (produto_por_codigo c0 k)
      end; intros Hrun; inversion Hrun; reflexivity.
    + intros Hrun. inversion Hrun. reflexivity.
  - destruct (produto_por_codigo c (l_codigo row));
      intros Hrun; inversion Hrun; reflexivity.
Qed.

(** Whenever the loop ends normally, it has counted the rows of a valid
    kind and appended one movement for each. *)
Lemma importar_linhas_diario (doc : option string) (rows : list linha) :
  forall (n n' : Z) (c c' : conn),
    importar_linhas doc rows n c = (Ok n', c') ->
    n' = n + Z.of_nat (List.length
                         (filter (fun r => py_in (upper (l_tipo r)) tipos_validos)
                                 rows)) /\
    exists novos : list movimento,
      movimentos c' = (movimentos c ++ novos)%list /\
      List.length novos =
        List.length (filter (fun r => py_in (upper (l_tipo r)) tipos_validos) rows) /\
      Forall (fun m => In (tipo m) tipos_validos /\ origem m = Some "EXCEL" /\
                       documento m = doc) novos.
Proof.
  induction rows as [|row rest IH]; intros n n' c c' Hrun.
  - cbn in Hrun. inversion Hrun; subst. split; [cbn; lia|].
    exists []. rewrite app_nil_r. auto.
  - cbn [importar_linhas filter] in *.
    destruct (py_in (upper (l_tipo row)) tipos_validos) eqn:Hval; cbn [negb] in Hrun.
    + unfold bind at 1 in Hrun.
      destruct (upsert_por_codigo row c) as [[pid|e] c1] eqn:Hup; [|discriminate].
      pose proof (upsert_por_codigo_diario row c c1 _ Hup) as Hm1.
      destruct (produto_por_id c1 pid) as [r|] eqn:Hr.
      * destruct (registra_um_movimento c1 pid (upper (l_tipo row))
                    (upper (l_tipo row)) (l_quantidade row) (l_preco_unit row)
                    (Some "EXCEL") doc (importar_linhas doc rest (n + 1)) r Hr)
          as [(c2 & Hstep & Hm2 & _)|(e & c2 & Hfail)];
          [|rewrite Hfail in Hrun; discriminate Hrun].
        rewrite Hstep in Hrun.
        destruct (IH _ _ _ _ Hrun) as (Hn & novos & Hm' & Hlen & Hall).
        split; [cbn [List.length]; lia|].
        eexists. split; [|split].
        -- rewrite Hm', Hm2, Hm1, <- app_assoc. reflexivity.
        -- cbn [app List.length]. rewrite Hlen. reflexivity.
        -- cbn [app]. constructor; [|exact Hall].
           cbn [tipo origem documento].
           split; [apply py_in_In; exact Hval|auto].
      * exfalso. unfold bind at 1 in Hrun. unfold get in Hrun.
        unfold bind at 1 in Hrun. unfold insert_movimento at 1 in Hrun.
        rewrite Hr in Hrun. discriminate Hrun.
    + apply IH. exact Hrun.
Qed.

(** X17. A sheet import that completes reports exactly the number of rows
    whose kind is valid, and has appended that many movements to the
    journal and no other: the earlier movements are kept in place, and
    every new one has a valid kind, the origin EXCEL and the file name. *)
Theorem importar_excel_conta_o_que_registra
        (doc : option string) (rows : list linha) (c c' : conn) (n : Z) :
  importar_excel doc rows c = (Ok n, c') ->
  n = Z.of_nat (List.length
                  (filter (fun r => py_in (upper (l_tipo r)) tipos_validos) rows)) /\
  exists novos : list movimento,
    movimentos c' = (movimentos c ++ novos)%list /\
    Z.of_nat (List.length novos) = n /\
    Forall (fun m => In (tipo m) tipos_validos /\ origem m = Some "EXCEL" /\
                     documento m = doc) novos.
Proof.
  unfold importar_excel, begin.
  destruct (importar_linhas doc rows 0 c) as [[n0|e] c0] eqn:Hrun; [|discriminate].
  intros Heq. inversion Heq; subst n0 c0; clear Heq.
  destruct (importar_linhas_diario doc rows _ _ _ _ Hrun)
    as (Hn & novos & Hm & Hlen & Hall).
  split; [lia|]. exists novos. split; [exact Hm|]. split; [lia|exact Hall].
Qed.

End Planilha.

(** ** Registering a product *)
Section Cadastro.
Context {F : Type} {PF : PyFloat F} {PS : PyStr}.

Local Abbreviation produto := (@produto F).
Local Abbreviation conn := (@conn F).

Lemma find_app_novo (l : list produto) (p : produto) (id : Z) :
  ~ In id (map prod_id l) ->
  find (fun x => prod_id x =? id) (l ++ [p]) =
  if prod_id p =? id then Some p else None.
Proof.
  intros Hnot. induction l as [|x l IH]; simpl; [reflexivity|].
  destruct (prod_id x =? id) eqn:Ex.
  - exfalso. apply Hnot. left. now apply Z.eqb_eq.
  - apply IH. intros Hin. apply Hnot. right. exact Hin.
Qed.

Lemma find_app_antigo (l : list produto) (p : produto) (id : Z) :
  prod_id p <> id ->
  find (fun x => prod_id x =? id) (l ++ [p]) = find (fun x => prod_id x =? id) l.
Proof.
  intros Hne. induction l as [|x l IH]; simpl.
  - apply Z.eqb_neq in Hne. rewrite Hne. reflexivity.
  - destruct (prod_id x =? id); [reflexivity|exact IH].
Qed.

(** X10. A registration that completes, on a store whose ids are as the
    SERIAL key issues them, used a code that no product had, and can be
    read back: the id returned is the next value of the sequence, the
    table has one row more, found under that id, with the description and
    the lead time sent and with stock 0, average cost 0 and consumption
    0; the response reports stock 0 and cost 0, every other id resolves
    as before, the journal is untouched and the ids are again as the key
    issues them. *)
Theorem criar_produto_e_recuperavel
        (p : @ProdutoIn F) (c c' : conn) (out : @ProdutoOut F) :
  ids_validos c ->
  criar_produto p c = (Ok out, c') ->
  produto_por_codigo c (pin_codigo p) = None /\
  pout_id out = produtos_id_seq c /\
  produtos_id_seq c' = produtos_id_seq c + 1 /\
  (exists row : produto,
      produtos c' = (produtos c ++ [row])%list /\
      produto_por_id c' (pout_id out) = Some row /\
      descricao row = pin_descricao p /\
      lead_time_dias row = pin_lead_time_dias p /\
      preco_medio row = Some f0 /\ estoque_atual row = Some f0 /\
      consumo_medio_dia row = Some f0) /\
  pout_descricao out = pin_descricao p /\
  pout_preco_medio out = f0 /\ pout_estoque_atual out = f0 /\
  (forall id, id <> pout_id out -> produto_por_id c' id = produto_por_id c id) /\
  movimentos c' = movimentos c /\
  ids_validos c'.
Proof.
  intros (Hseq & Hnd & Hall) Hrun.
  unfold criar_produto, begin, bind, insert_produto, ret in Hrun.
  destruct (produto_por_codigo c (pin_codigo p)) eqn:Hcod; [discriminate Hrun|].
  set (row := mkProduto (produtos_id_seq c) (pin_codigo p) (pin_ean p)
                        (pin_descricao p) (pin_ncm p) (pin_unidade p)
                        (Some f0) (Some f0) (Some f0)
                        (pin_lead_time_dias p) (pin_fator_seguranca p)
                        (agora c) (agora c)) in *.
  inversion Hrun; subst out c'; clear Hrun.
  assert (Hfresh : ~ In (produtos_id_seq c) (map prod_id (produtos c))).
  { intros Hin. rewrite Forall_forall in Hall. specialize (Hall _ Hin). lia. }
  cbn [pout_id pout_descricao pout_preco_medio pout_estoque_atual prod_id
       descricao preco_medio estoque_atual row float_or_zero produtos
       produtos_id_seq movimentos].
  split; [reflexivity|]. split; [reflexivity|]. split; [reflexivity|].
  split.
  { exists row. split; [reflexivity|]. split; [|repeat split; reflexivity].
    unfold produto_por_id. cbn [produtos].
    rewrite find_app_novo by exact Hfresh.
    cbn [prod_id row]. rewrite Z.eqb_refl. reflexivity. }
  split; [reflexivity|].
  split; [unfold float_or; destruct (fis0 f0); reflexivity|].
  split; [unfold float_or; destruct (fis0 f0); reflexivity|].
  split.
  { intros id Hne. unfold produto_por_id. cbn [produtos].
    apply find_app_antigo. cbn [prod_id row]. congruence. }
  split; [reflexivity|].
  unfold ids_validos. cbn [produtos produtos_id_seq]. rewrite map_app.
  cbn [map prod_id row]. split; [lia|]. split.
  - apply NoDup_app; [exact Hnd|repeat constructor; intros []|].
    intros i Hi [Heq|[]]. subst i. contradiction.
  - apply Forall_app. split.
    + eapply Forall_impl; [|exact Hall]. cbn. intros i Hi. lia.
    + constructor; [lia|constructor].
Qed.

(** X11. Registering a product under a code that is already in use is refused
    by the UNIQUE constraint: nothing is stored, and one value of the id
    sequence is spent. *)
Theorem criar_produto_com_codigo_repetido
        (p : @ProdutoIn F) (c : conn) (r : produto) :
  produto_por_codigo c (pin_codigo p) = Some r ->
  exists c' : conn,
    criar_produto p c = (Raise IntegrityError, c') /\
    produtos c' = produtos c /\ movimentos c' = movimentos c /\
    produtos_id_seq c' = produtos_id_seq c + 1.
Proof.
  intros Hcod. eexists. split.
  - unfold criar_produto, begin, bind, insert_produto. rewrite Hcod. reflexivity.
  - repeat split; reflexivity.
Qed.

End Cadastro.

(** ** The read queries *)
Section Leituras.
Context {F : Type} {PF : PyFloat F} {PL : PyFloatLaws F} {NL : NumericLaws F}
        {PS : PyStr}.

Local Abbreviation produto := (@produto F).
Local Abbreviation conn := (@conn F).

Lemma begin_leitura {A : Type} (body : @M F A) (c : conn) :
  (forall r c0, body c = (r, c0) -> c0 = c) ->
  forall r c', begin body c = (r, c') -> c' = c.
Proof.
  intros Hbody r c'. unfold begin.
  destruct (body c) as [[a|e] c0]; intros Hrun;
    pose proof (Hbody _ _ eq_refl) as ->; inversion Hrun; subst.
  - reflexivity.
  - destruct c. reflexivity.
Qed.

(** Once the start of the window is known the query returns: the
    division is guarded. *)
Lemma calcular_giro_roda (dias since : Z) (c : conn) :
  desde (agora c) dias = Ok since ->
  exists g : F,
    calcular_giro dias c =
    (Ok (mkGiro dias
           (fround2 (fst (fold_left (giro_passo c since) (produtos c) (f0, f0))))
           (fround2 (snd (fold_left (giro_passo c since) (produtos c) (f0, f0))))
           (fround2 g)), c) /\
    (flt f0 (snd (fold_left (giro_passo c since) (produtos c) (f0, f0))) = false ->
     g = f0).
Proof.
  intros Hs. unfold calcular_giro, bind, get, lift, ret. rewrite Hs.
  set (acc := fold_left (giro_passo c since) (produtos c) (f0, f0)).
  destruct (flt f0 (snd acc)) eqn:Hpos.
  - unfold truediv. rewrite (flt_0_nonzero _ Hpos).
    eexists. split; [reflexivity|]. intros Hf. discriminate Hf.
  - exists f0. split; [reflexivity|]. reflexivity.
Qed.

Lemma calcular_giro_le (dias : Z) (c c0 : conn) (r : result (@giro_out F)) :
  calcular_giro dias c = (r, c0) -> c0 = c.
Proof.
  destruct (desde (agora c) dias) as [since|e] eqn:Hs.
  - destruct (calcular_giro_roda dias since c Hs) as (g & Hg & _).
    rewrite Hg. intros Hrun. inversion Hrun. reflexivity.
  - unfold calcular_giro, bind, get, lift. rewrite Hs.
    intros Hrun. inversion Hrun. reflexivity.
Qed.

(** X19. The four read endpoints (purchase suggestion, turnover, ABC
    curve, working capital) never write: whatever they return or raise,
    the store afterwards is the store before. *)
Theorem consultas_nao_alteram_o_banco (c : conn) :
  (forall pid r c', sugestao pid c = (r, c') -> c' = c) /\
  (forall dias r c', giro dias c = (r, c') -> c' = c) /\
  (forall dias r c', abc dias c = (r, c') -> c' = c) /\
  (forall dias r c', capital_de_giro dias c = (r, c') -> c' = c).
Proof.
  split; [|split; [|split]].
  - intros pid. apply begin_leitura. intros r c0.
    unfold calcular_min_max_sugestao, bind, get, lift, raise.
    destruct (produto_por_id c pid); intros Hrun; inversion Hrun; reflexivity.
  - intros dias. apply begin_leitura. intros r c0. apply calcular_giro_le.
  - intros dias. apply begin_leitura. intros r c0.
    unfold curva_abc, bind, get, lift. intros Hrun. inversion Hrun. reflexivity.
  - intros dias r c'. unfold capital_de_giro, begin, bind, get, ret.
    intros Hrun. inversion Hrun. reflexivity.
Qed.

Lemma giro_passo_sem_movimentos (c : conn) (since : Z) (l : list produto) :
  Forall (fun m => data_mov m < since) (movimentos c) ->
  forall cogs : F,
    snd (fold_left (giro_passo c since) l (cogs, f0)) = f0.
Proof.
  intros Hold. induction l as [|p l IH]; intros cogs; [reflexivity|].
  cbn [fold_left]. unfold giro_passo at 2. cbn [fst snd].
  assert (Hvazio : estoques_na_janela c (prod_id p) since = []).
  { unfold estoques_na_janela.
    induction (movimentos c) as [|m ms IHm]; [reflexivity|].
    inversion Hold as [|? ? Hm Hms]; subst. cbn [flat_map].
    assert (Hout : (since <=? data_mov m) = false) by (apply Z.leb_gt; exact Hm).
    rewrite Hout, andb_false_r. cbn [app]. apply IHm. exact Hms. }
  rewrite Hvazio. cbn [sql_avg sql_sum coalesce]. rewrite of_numeric_0.
  assert (H0 : float_or f0 f0 = f0) by (unfold float_or; destruct (fis0 f0); reflexivity).
  rewrite H0, fadd_0_0. apply IH.
Qed.

(** X7. When the start of the window is a date the runtime can
    represent, the turnover query returns: the division by the average
    stock is made only when it is above zero.  And when no movement is
    dated inside the window, whatever the products and their costs, the
    average stock and the turnover it reports are both 0. *)
Theorem giro_nunca_falha (c : conn) (dias since : Z) :
  desde (agora c) dias = Ok since ->
  (exists g, giro dias c = (Ok g, c) /\ g_periodo_dias g = dias) /\
  (Forall (fun m => data_mov m < since) (movimentos c) ->
   exists g, giro dias c = (Ok g, c) /\
             g_estoque_medio_aprox g = f0 /\ g_giro g = f0).
Proof.
  intros Hjan.
  destruct (calcular_giro_roda dias since c Hjan) as (g & Hg & Hzero).
  split.
  - eexists. split; [unfold giro, begin; rewrite Hg; reflexivity|reflexivity].
  - intros Hold.
    pose proof (giro_passo_sem_movimentos c _ (produtos c) Hold f0) as Hs.
    assert (H00 : flt f0 f0 = false).
    { destruct (flt f0 f0) eqn:E; [|reflexivity].
      rewrite (flt_asym _ _ E) in E. discriminate E. }
    rewrite Hs in Hzero. specialize (Hzero H00). subst g.
    eexists. split; [unfold giro, begin; rewrite Hg; reflexivity|].
    cbn [g_estoque_medio_aprox g_giro]. rewrite Hs, fround2_0. auto.
Qed.

End Leituras.

(** ** The ranking of the ABC curve and the kinds in the journal *)
Section Ordem_e_Diario.
Context {F : Type} {PF : PyFloat F} {PL : PyFloatLaws F} {PS : PyStr}.

Local Abbreviation produto := (@produto F).
Local Abbreviation movimento := (@movimento F).
Local Abbreviation conn := (@conn F).
Local Abbreviation item_abc := (@item_abc F).

Lemma sort_desc_de_ordenada (l : list item_abc) :
  Sorted nao_abaixo l -> sort_desc l = l.
Proof.
  induction l as [|x l IH]; intros Hs; [reflexivity|].
  inversion Hs as [|? ? Hl Hhd]; subst.
  cbn [sort_desc fold_right]. fold (sort_desc l). rewrite (IH Hl).
  destruct l as [|y l']; [reflexivity|].
  inversion Hhd as [|? ? Hxy]; subst. cbn [insere_desc].
  unfold nao_abaixo in Hxy. rewrite Hxy. reflexivity.
Qed.

(** X8. The ranking is a stable descending sort: a list that is already in
    descending order, ties included, comes out as it went in (equal
    values keep the order of the rows), and ranking a ranked list changes
    nothing. *)
Theorem sort_desc_e_idempotente (l : list item_abc) :
  sort_desc (sort_desc l) = sort_desc l /\
  (Sorted nao_abaixo l -> sort_desc l = l) /\
  (forall x y : item_abc,
      flt (valor x) (valor y) = false -> sort_desc [x; y] = [x; y]) /\
  (forall x y : item_abc,
      flt (valor x) (valor y) = true -> sort_desc [x; y] = [y; x]).
Proof.
  split; [|split; [|split]].
  - apply sort_desc_de_ordenada. apply sort_desc_sorted.
  - apply sort_desc_de_ordenada.
  - intros x y Hxy. cbn. rewrite Hxy. reflexivity.
  - intros x y Hxy. cbn. rewrite Hxy. reflexivity.
Qed.

Lemma lancar_movimento_diario (m : @MovimentoIn F) (c c' : conn) :
  lancar_movimento m c = (Ok tt, c') ->
  exists novo : movimento,
    movimentos c' = (movimentos c ++ [novo])%list /\
    tipo novo = upper (in_tipo m) /\ In (tipo novo) tipos_validos.
Proof.
  unfold lancar_movimento.
  destruct (py_in (upper (in_tipo m)) tipos_validos) eqn:Hval; cbn [negb];
    [|intros Hrun; discriminate Hrun].
  unfold begin, bind, get. unfold insert_movimento at 1.
  destruct (produto_por_id c (in_produto_id m)) as [row|] eqn:Hrow;
    [|intros Hrun; discriminate Hrun].
  match goal with
  | |- context [atualizar_preco_medio_e_estoque ?pid ?t ?q ?pu ?c1] =>
      pose proof (atualizar_resultado c1 pid t q pu) as Hres;
      assert (Hrow1 : produto_por_id c1 pid = Some row) by exact Hrow;
      rewrite Hrow1 in Hres; destruct Hres as (e' & p' & _ & Hmotor);
      rewrite Hmotor
  end.
  match goal with
  | |- context [calcular_consumo_medio ?pid ?d ?c2] =>
      destruct (calcular_consumo_medio_resultado c2 pid d) as [[rate Hok]|[e He]];
      [rewrite Hok|rewrite He; intros Hrun; discriminate Hrun]
  end.
  intros Hrun. inversion Hrun; subst c'; clear Hrun.
  eexists. split; [reflexivity|]. cbn [tipo].
  split; [reflexivity|]. apply py_in_In. exact Hval.
Qed.

Lemma lancar_movimento_falha (m : @MovimentoIn F) (c c' : conn) (e : exn) :
  lancar_movimento m c = (Raise e, c') -> movimentos c' = movimentos c.
Proof.
  unfold lancar_movimento.
  destruct (negb (py_in (upper (in_tipo m)) tipos_validos)).
  - unfold raise. intros Hrun. inversion Hrun; subst. reflexivity.
  - intros Hrun. apply (begin_atomico _ _ _ _ Hrun).
Qed.

(** X15. The journal only ever holds the three kinds, in upper case: if every
    movement recorded has a valid kind, so has every movement after
    posting a movement, importing a sheet or importing an invoice,
    whether the request succeeds or fails. *)
Theorem diario_so_guarda_tipos_validos (c : conn) :
  Forall (fun m => In (tipo m) tipos_validos) (movimentos c) ->
  (forall (m : @MovimentoIn F) r c',
      lancar_movimento m c = (r, c') ->
      Forall (fun m => In (tipo m) tipos_validos) (movimentos c')) /\
  (forall doc (rows : list (@linha F)) r c',
      importar_excel doc rows c = (r, c') ->
      Forall (fun m => In (tipo m) tipos_validos) (movimentos c')) /\
  (forall doc (itens : list (option (@item_nfe F))) r c',
      importar_xml_nfe doc itens c = (r, c') ->
      Forall (fun m => In (tipo m) tipos_validos) (movimentos c')).
Proof.
  intros Hinv. split; [|split].
  - intros m [[]|e] c' Hrun.
    + destruct (lancar_movimento_diario m c c' Hrun) as (novo & Hm & _ & Hv).
      rewrite Hm. apply Forall_app. split; [exact Hinv|].
      constructor; [exact Hv|constructor].
    + rewrite (lancar_movimento_falha m c c' e Hrun). exact Hinv.
  - intros doc rows [n|e] c' Hrun.
    + unfold importar_excel, begin in Hrun.
      destruct (importar_linhas doc rows 0 c) as [[n0|e0] c0] eqn:Hloop;
        [|discriminate Hrun].
      inversion Hrun; subst n0 c0; clear Hrun.
      destruct (importar_linhas_diario doc rows _ _ _ _ Hloop)
        as (_ & novos & Hm & _ & Hall).
      rewrite Hm. apply Forall_app. split; [exact Hinv|].
      eapply Forall_impl; [|exact Hall]. cbn beta. tauto.
    + destruct (begin_atomico _ _ _ _ Hrun) as [_ Hm]. rewrite Hm. exact Hinv.
  - intros doc itens [n|e] c' Hrun.
    + unfold importar_xml_nfe, begin in Hrun.
      destruct (importar_itens doc itens 0 c) as [[n0|e0] c0] eqn:Hloop;
        [|discriminate Hrun].
      inversion Hrun; subst n0 c0; clear Hrun.
      destruct (importar_itens_diario doc itens _ _ _ _ Hloop)
        as (_ & novos & Hm & _ & Hall).
      rewrite Hm. apply Forall_app. split; [exact Hinv|].
      eapply Forall_impl; [|exact Hall]. cbn beta.
      intros a [Ha _]. rewrite Ha. left. reflexivity.
    + destruct (begin_atomico _ _ _ _ Hrun) as [_ Hm]. rewrite Hm. exact Hinv.
Qed.

End Ordem_e_Diario.

(** ** A quantity that is not a number *)
Section QuantidadeNaN.
Context {PS : PyStr}.

Local Abbreviation conn64 := (@conn float).
Local Abbreviation produto64 := (@produto float).

Lemma b64_add_nan (x : float) : PrimFloat.add x PrimFloat.nan = PrimFloat.nan.
Proof.
  rewrite <- (SF2Prim_Prim2SF (PrimFloat.add x PrimFloat.nan)), add_spec.
  change (Prim2SF PrimFloat.nan) with S754_nan.
  unfold SF64add. destruct (Prim2SF x); reflexivity.
Qed.

Lemma b64_sub_nan (x : float) : PrimFloat.sub x PrimFloat.nan = PrimFloat.nan.
Proof.
  rewrite <- (SF2Prim_Prim2SF (PrimFloat.sub x PrimFloat.nan)), sub_spec.
  change (Prim2SF PrimFloat.nan) with S754_nan.
  unfold SF64sub. destruct (Prim2SF x); reflexivity.
Qed.

(** X3. On binary64, a quantity that is NaN (an empty quantity cell of a
    sheet reaches the engine as NaN) is accepted by the engine: an
    ENTRADA turns the stock into NaN, a SAIDA and every other kind sets
    the stock to 0, because [max(0.0, nan)] is [0.0]; the average cost
    is kept in all three cases. *)
Theorem quantidade_nan_no_motor
        (c : conn64) (pid : Z) (t : string) (pu : float) (row : produto64) :
  produto_por_id c pid = Some row ->
  exists c' : conn64,
    atualizar_preco_medio_e_estoque pid t PrimFloat.nan pu c = (Ok tt, c') /\
    estoque_de c' pid =
      Some (if (upper t =? "ENTRADA")%string then PrimFloat.nan else PrimFloat.zero) /\
    preco_de c' pid = Some (float_or_zero (preco_medio row)).
Proof.
  intros Hrow.
  set (e := float_or_zero (estoque_atual row)).
  set (p := float_or_zero (preco_medio row)).
  assert (Hn : novo_estoque_e_preco t e p PrimFloat.nan pu =
               Ok (if (upper t =? "ENTRADA")%string
                   then PrimFloat.nan else PrimFloat.zero, p)).
  { destruct (String.eqb_spec (upper t) "ENTRADA") as [E1|N1].
    - rewrite (novo_entrada t e p _ pu E1). cbn [fadd flt f0 binary64].
      rewrite b64_add_nan. reflexivity.
    - destruct (String.eqb_spec (upper t) "SAIDA") as [E2|N2].
      + rewrite (novo_saida t e p _ pu E2). unfold py_max.
        cbn [fsub flt f0 binary64]. rewrite b64_sub_nan. reflexivity.
      + rewrite (novo_outro t e p _ pu N1 N2). unfold py_max.
        cbn [fadd flt f0 binary64]. rewrite b64_add_nan. reflexivity. }
  eexists. split.
  - apply atualizar_existente with (row := row); [exact Hrow|exact Hn].
  - apply estado_apos_update with (row := row). exact Hrow.
Qed.

End QuantidadeNaN.

(** ** The theorems above at concrete stores *)
Module Instancias2.

#[local] Existing Instance upper_py_ascii.

Import Cenario Cenario2.

Lemma motor_em_um_produto_so_altera_o_arroz :
  atualizar_preco_medio_e_estoque 1 "entrada" (F64 10) (F64 2) um_produto
  = (Ok tt, apos_entrada_1) /\
  movimentos apos_entrada_1 = movimentos um_produto /\
  produtos_id_seq apos_entrada_1 = produtos_id_seq um_produto /\
  movimentos_id_seq apos_entrada_1 = movimentos_id_seq um_produto /\
  map prod_id (produtos apos_entrada_1) = map prod_id (produtos um_produto).
Proof.
  assert (Hrun : atualizar_preco_medio_e_estoque 1 "entrada" (F64 10) (F64 2)
                   um_produto = (Ok tt, apos_entrada_1)) by reflexivity.
  split; [exact Hrun|].
  destruct (motor_so_altera_o_produto_enderecado
              um_produto apos_entrada_1 1 "entrada" (F64 10) (F64 2) (Ok tt) Hrun)
    as (H1 & H2 & H3 & H4 & _).
  split; [exact H1|]. split; [exact H2|]. split; [exact H3|exact H4].
Defined.

Lemma refresh_em_consumo_2_estoque_5 :
  calcular_consumo_medio 1 30 consumo_2_estoque_5 =
    (Ok (F64 2), apos_refresh) /\
  movimentos apos_refresh = movimentos consumo_2_estoque_5 /\
  map prod_id (produtos apos_refresh) = map prod_id (produtos consumo_2_estoque_5) /\
  estoque_de apos_refresh 1 = estoque_de consumo_2_estoque_5 1 /\
  preco_de apos_refresh 1 = preco_de consumo_2_estoque_5 1.
Proof.
  assert (Hrun : calcular_consumo_medio 1 30 consumo_2_estoque_5 =
                 (Ok (F64 2), apos_refresh)) by (vm_compute; reflexivity).
  split; [exact Hrun|].
  destruct (refresh_de_consumo_preserva_a_valoracao
              consumo_2_estoque_5 apos_refresh 1 30 (Ok (F64 2)) Hrun)
    as (H1 & _ & _ & H4 & H5 & _).
  split; [exact H1|]. split; [exact H4|]. exact (H5 1).
Defined.

Lemma lancamento_de_entrada_em_um_produto :
  lancar_movimento entrada_10_a_2 um_produto = (Ok tt, apos_lancamento) /\
  In (upper (in_tipo entrada_10_a_2)) tipos_validos /\
  (exists row, produto_por_id um_produto (in_produto_id entrada_10_a_2) = Some row) /\
  (exists novo : @movimento float,
      movimentos apos_lancamento = (movimentos um_produto ++ [novo])%list /\
      mov_id novo = movimentos_id_seq um_produto /\
      produto_id novo = in_produto_id entrada_10_a_2 /\
      tipo novo = upper (in_tipo entrada_10_a_2)) /\
  movimentos_id_seq apos_lancamento = movimentos_id_seq um_produto + 1.
Proof.
  assert (Hrun : lancar_movimento entrada_10_a_2 um_produto
                 = (Ok tt, apos_lancamento)) by (vm_compute; reflexivity).
  split; [exact Hrun|].
  destruct (lancamento_valido_registra_e_atualiza
              um_produto apos_lancamento entrada_10_a_2 Hrun)
    as (H1 & H2 & H3 & H4 & _).
  split; [exact H1|]. split; [exact H2|]. split; [exact H3|exact H4].
Defined.

Lemma lancamento_em_banco_vazio :
  In (upper (in_tipo entrada_10_a_2)) tipos_validos /\
  produto_por_id vazio (in_produto_id entrada_10_a_2) = None /\
  (exists c',
      lancar_movimento entrada_10_a_2 vazio = (Raise IntegrityError, c') /\
      produtos c' = produtos vazio /\ movimentos c' = movimentos vazio /\
      produtos_id_seq c' = produtos_id_seq vazio /\
      movimentos_id_seq c' = movimentos_id_seq vazio + 1).
Proof.
  assert (Hin : In (upper (in_tipo entrada_10_a_2)) tipos_validos)
    by (left; reflexivity).
  split; [exact Hin|]. split; [reflexivity|].
  exact (lancamento_para_produto_inexistente vazio entrada_10_a_2 Hin eq_refl).
Defined.

Lemma nota_de_dois_itens_e_um_det_vazio :
  importar_xml_nfe (Some "nfe.xml") nota vazio = (Ok 2, apos_nota) /\
  (exists novos : list (@movimento float),
      movimentos apos_nota = (movimentos vazio ++ novos)%list /\
      Z.of_nat (List.length novos) = 2 /\
      Forall (fun m => tipo m = "ENTRADA" /\ origem m = Some "XML") novos).
Proof.
  assert (Hrun : importar_xml_nfe (Some "nfe.xml") nota vazio = (Ok 2, apos_nota))
    by (vm_compute; reflexivity).
  split; [exact Hrun|].
  exact (proj2 (importar_xml_nfe_conta_o_que_registra
                  (Some "nfe.xml") nota vazio apos_nota 2 Hrun)).
Defined.

Lemma planilha_do_cenario_6_conta_duas_linhas :
  importar_excel (Some "estoque.xlsx") planilha vazio = (Ok 2, apos_planilha) /\
  (exists novos : list (@movimento float),
      movimentos apos_planilha = (movimentos vazio ++ novos)%list /\
      Z.of_nat (List.length novos) = 2 /\
      Forall (fun m => In (tipo m) tipos_validos /\ origem m = Some "EXCEL" /\
                       documento m = Some "estoque.xlsx") novos).
Proof.
  assert (Hrun : importar_excel (Some "estoque.xlsx") planilha vazio
                 = (Ok 2, apos_planilha)) by (vm_compute; reflexivity).
  split; [exact Hrun|].
  exact (proj2 (importar_excel_conta_o_que_registra
                  (Some "estoque.xlsx") planilha vazio apos_planilha 2 Hrun)).
Defined.

Lemma cadastro_de_arroz_em_banco_vazio :
  ids_validos vazio /\
  criar_produto pedido_arroz vazio = (Ok resposta_arroz, apos_cadastro) /\
  pout_id resposta_arroz = 1 /\
  produtos_id_seq apos_cadastro = 2 /\
  (exists row : @produto float,
      produtos apos_cadastro = (produtos vazio ++ [row])%list /\
      produto_por_id apos_cadastro (pout_id resposta_arroz) = Some row /\
      descricao row = "arroz" /\ lead_time_dias row = Some 7 /\
      preco_medio row = Some f0 /\ estoque_atual row = Some f0 /\
      consumo_medio_dia row = Some f0) /\
  ids_validos apos_cadastro.
Proof.
  assert (Hids : ids_validos vazio).
  { split; [reflexivity|]. split; constructor. }
  assert (Hrun : criar_produto pedido_arroz vazio = (Ok resposta_arroz, apos_cadastro))
    by (vm_compute; reflexivity).
  split; [exact Hids|]. split; [exact Hrun|].
  destruct (criar_produto_e_recuperavel pedido_arroz vazio apos_cadastro
                                        resposta_arroz Hids Hrun)
    as (_ & Hid & Hseq & Hrow & _ & _ & _ & _ & _ & Hids').
  split; [exact Hid|]. split; [exact Hseq|]. split; [exact Hrow|exact Hids'].
Defined.

Lemma cadastro_com_codigo_A1_repetido :
  produto_por_codigo apos_planilha (pin_codigo pedido_arroz) = Some produto_A1 /\
  (exists c' : @conn float,
      criar_produto pedido_arroz apos_planilha = (Raise IntegrityError, c') /\
      produtos c' = produtos apos_planilha /\
      movimentos c' = movimentos apos_planilha /\
      produtos_id_seq c' = produtos_id_seq apos_planilha + 1).
Proof.
  assert (Hcod : produto_por_codigo apos_planilha (pin_codigo pedido_arroz)
                 = Some produto_A1) by (vm_compute; reflexivity).
  split; [exact Hcod|].
  exact (criar_produto_com_codigo_repetido pedido_arroz apos_planilha produto_A1
                                           Hcod).
Defined.

Lemma consultas_em_dois_produtos :
  (forall pid r c',
      sugestao pid dois_produtos = (r, c') -> c' = dois_produtos) /\
  (forall dias r c', giro dias dois_produtos = (r, c') -> c' = dois_produtos) /\
  (forall dias r c', abc dias dois_produtos = (r, c') -> c' = dois_produtos) /\
  (forall dias r c',
      capital_de_giro dias dois_produtos = (r, c') -> c' = dois_produtos).
Proof.
  exact (consultas_nao_alteram_o_banco dois_produtos).
Defined.

Lemma giro_com_janela_no_futuro :
  desde (agora dois_produtos) (-1) = Ok 1762300800000000 /\
  Forall (fun m : @movimento float => data_mov m < 1762300800000000)
         (movimentos dois_produtos) /\
  (exists g, giro 30 dois_produtos = (Ok g, dois_produtos) /\
             g_periodo_dias g = 30) /\
  (exists g, giro (-1) dois_produtos = (Ok g, dois_produtos) /\
             g_estoque_medio_aprox g = f0 /\ g_giro g = f0).
Proof.
  assert (Hjan : desde (agora dois_produtos) (-1) = Ok 1762300800000000)
    by reflexivity.
  assert (Hant : Forall (fun m : @movimento float => data_mov m < 1762300800000000)
                        (movimentos dois_produtos)).
  { apply Forall_forall. intros m Hin. apply Z.ltb_lt. revert m Hin.
    apply (proj1 (forallb_forall
                    (fun m : @movimento float => data_mov m <? 1762300800000000)
                    (movimentos dois_produtos))).
    vm_compute. reflexivity. }
  split; [exact Hjan|]. split; [exact Hant|]. split.
  - exact (proj1 (giro_nunca_falha dois_produtos 30 1759622400000000 eq_refl)).
  - exact (proj2 (giro_nunca_falha dois_produtos (-1) 1762300800000000 Hjan) Hant).
Defined.

Lemma ordem_de_dois_itens :
  sort_desc (sort_desc dois_itens) = sort_desc dois_itens /\
  sort_desc dois_itens =
    [mkItem 1 "produto A" (F64 800); mkItem 2 "produto B" (F64 200)].
Proof.
  destruct (sort_desc_e_idempotente dois_itens) as (Hidem & _ & _ & Htroca).
  split; [exact Hidem|].
  exact (Htroca (mkItem 2 "produto B" (F64 200)) (mkItem 1 "produto A" (F64 800))
                eq_refl).
Defined.

Lemma diario_de_dois_produtos :
  Forall (fun m : @movimento float => In (tipo m) tipos_validos)
         (movimentos dois_produtos) /\
  (forall (m : @MovimentoIn float) r c',
      lancar_movimento m dois_produtos = (r, c') ->
      Forall (fun m => In (tipo m) tipos_validos) (movimentos c')) /\
  (forall doc (rows : list (@linha float)) r c',
      importar_excel doc rows dois_produtos = (r, c') ->
      Forall (fun m => In (tipo m) tipos_validos) (movimentos c')) /\
  (forall doc (itens : list (option (@item_nfe float))) r c',
      importar_xml_nfe doc itens dois_produtos = (r, c') ->
      Forall (fun m => In (tipo m) tipos_validos) (movimentos c')).
Proof.
  assert (Hd : Forall (fun m : @movimento float => In (tipo m) tipos_validos)
                      (movimentos dois_produtos)).
  { apply Forall_forall. intros m Hin. apply py_in_In. revert m Hin.
    apply (proj1 (forallb_forall
                    (fun m : @movimento float => py_in (tipo m) tipos_validos)
                    (movimentos dois_produtos))).
    vm_compute. reflexivity. }
  split; [exact Hd|].
  exact (diario_so_guarda_tipos_validos dois_produtos Hd).
Defined.

Lemma saida_de_quantidade_nan_zera_o_estoque :
  produto_por_id apos_entrada_2 1 = Some arroz_20_3 /\
  (exists c' : @conn float,
      atualizar_preco_medio_e_estoque 1 "saida" PrimFloat.nan (F64 0) apos_entrada_2
      = (Ok tt, c') /\
      estoque_de c' 1 = Some PrimFloat.zero /\
      preco_de c' 1 = Some (F64 3)).
Proof.
  assert (Hrow : produto_por_id apos_entrada_2 1 = Some arroz_20_3) by reflexivity.
  split; [exact Hrow|].
  exact (quantidade_nan_no_motor apos_entrada_2 1 "saida" (F64 0) arroz_20_3 Hrow).
Defined.

Lemma estoque_apos_tres_movimentos :
  produto_por_id um_produto 1 = Some arroz_novo /\
  flt (float_or_zero (estoque_atual arroz_novo)) f0 = false /\
  Forall (fun m : string * float * float =>
            upper (fst (fst m)) = "ENTRADA" -> flt (snd (fst m)) f0 = false)
         tres_movimentos /\
  (exists (c' : @conn float) (e' : float),
      aplicar_movimentos 1 (firstn 3 tres_movimentos) um_produto = (Ok tt, c') /\
      estoque_de c' 1 = Some e' /\ flt e' f0 = false).
Proof.
  assert (Hrow : produto_por_id um_produto 1 = Some arroz_novo) by reflexivity.
  assert (Hs : flt (float_or_zero (estoque_atual arroz_novo)) f0 = false)
    by reflexivity.
  assert (Hall : Forall (fun m : string * float * float =>
                           upper (fst (fst m)) = "ENTRADA" ->
                           flt (snd (fst m)) f0 = false) tres_movimentos).
  { apply Forall_cons; [intros _; reflexivity|].
    apply Forall_cons; [intros _; reflexivity|].
    apply Forall_cons; [intros Hup; vm_compute in Hup; discriminate Hup|].
    apply Forall_nil. }
  split; [exact Hrow|]. split; [exact Hs|]. split; [exact Hall|].
  exact (estoque_nao_negativo_sem_entrada_negativa
           1 tres_movimentos um_produto arroz_novo Hrow Hs Hall 3).
Defined.

End Instancias2.
